(** * proyecto-cursos: the enrollment and authorization core of [app.py]

    A shallow embedding of the Flask application in [src/app.py]: the five
    SQLAlchemy tables, every route of the application as a function from the
    stored tables to an outcome (the snapshots it commits, the messages it
    flashes, the response it returns), and the [init-data] command.  The
    theorems at the end are about these functions. *)

From Stdlib Require Import ZArith List String Ascii Bool Lia.
Import ListNotations.

Open Scope string_scope.
Open Scope Z_scope.

(** ** Python strings

    The two [str] operations the application uses: the [in] test and
    [str.replace]. *)

Module PyStr.

(** [sub in s] *)
Fixpoint contains (sub s : string) : bool :=
  prefix sub s ||
  match s with
  | EmptyString => false
  | String _ rest => contains sub rest
  end.

(** [s.replace(old, new)] for a non-empty [old]: the occurrences are taken
    from the left and do not overlap.  [skip] counts the characters of a
    matched occurrence still to be dropped. *)
Fixpoint replace_from (skip : nat) (old new s : string) : string :=
  match s with
  | EmptyString => EmptyString
  | String c rest =>
      match skip with
      | S k => replace_from k old new rest
      | O =>
          if prefix old s
          then new ++ replace_from (String.length old - 1) old new rest
          else String c (replace_from 0 old new rest)
      end
  end.

(** With an empty [old] Python puts [new] before every character and at the
    end. *)
Fixpoint replace_empty (new s : string) : string :=
  match s with
  | EmptyString => new
  | String c rest => new ++ String c (replace_empty new rest)
  end.

Definition replace (old new s : string) : string :=
  match old with
  | EmptyString => replace_empty new s
  | String _ _ => replace_from 0 old new s
  end.

End PyStr.

(** ** The tables

    One record per model class, with the columns of the class.  A table is
    the list of its rows in insertion order; the identifiers are integers.
    A [DateTime] is the number of microseconds since the epoch. *)

Module Usuario.
Record t := mk {
  id : Z;
  email : string;
  password_hash : string;
  is_admin : bool;
  reset_token : option string;
  token_expiration : option Z
}.
End Usuario.

Module Categoria.
Record t := mk {
  id : Z;
  nombre : string
}.
End Categoria.

Module Curso.
Record t := mk {
  id : Z;
  titulo : string;
  categoria_id : Z
}.
End Curso.

Module Video.
Record t := mk {
  id : Z;
  titulo : string;
  url_video : string;
  curso_id : Z
}.
End Video.

Module Inscripcion.
Record t := mk {
  id : Z;
  usuario_id : Z;
  curso_id : Z
}.
End Inscripcion.

Record DB := mkDB {
  usuarios : list Usuario.t;
  categorias : list Categoria.t;
  cursos : list Curso.t;
  videos : list Video.t;
  inscripciones : list Inscripcion.t
}.

(** What [create-db] leaves: the five tables, empty. *)
Definition empty_db : DB := mkDB [] [] [] [] [].

(** ** Queries *)

(** [query.filter_by(...).first()]: the first row, in table order, that
    satisfies the condition. *)
Definition first {A : Type} (cond : A -> bool) (table : list A) : option A :=
  find cond table.

(** [query.get(id)] *)
Definition get {A : Type} (pk : A -> Z) (table : list A) (id : Z) : option A :=
  find (fun row => pk row =? id) table.

(** The primary key given to a new row: with the [sqlite:///cursos.db] store
    of the local configuration an [INTEGER PRIMARY KEY] column takes one
    more than the largest key in the table, and 1 in an empty table. *)
Definition next_id (ids : list Z) : Z := 1 + fold_right Z.max 0 ids.

Definition option_eqb (a : option string) (b : string) : bool :=
  match a with
  | Some x => String.eqb x b
  | None => false
  end.

(** The relationships of the models, read through the foreign keys. *)
Definition Categoria_cursos (d : DB) (c : Categoria.t) : list Curso.t :=
  filter (fun k => Curso.categoria_id k =? Categoria.id c) (cursos d).

Definition Curso_videos (d : DB) (c : Curso.t) : list Video.t :=
  filter (fun v => Video.curso_id v =? Curso.id c) (videos d).

Definition Curso_inscritos (d : DB) (c : Curso.t) : list Inscripcion.t :=
  filter (fun i => Inscripcion.curso_id i =? Curso.id c) (inscripciones d).

(** ** Writes

    [db.session.add(row)] followed by a commit appends the row under a fresh
    key; an attribute assignment followed by a commit rewrites the row with
    that primary key. *)

Definition add_usuario (email hash : string) (admin : bool) (d : DB) : DB :=
  mkDB (usuarios d ++
          [Usuario.mk (next_id (map Usuario.id (usuarios d))) email hash admin None None])
       (categorias d) (cursos d) (videos d) (inscripciones d).

Definition add_categoria (nombre : string) (d : DB) : DB :=
  mkDB (usuarios d)
       (categorias d ++ [Categoria.mk (next_id (map Categoria.id (categorias d))) nombre])
       (cursos d) (videos d) (inscripciones d).

Definition add_curso (titulo : string) (categoria_id : Z) (d : DB) : DB :=
  mkDB (usuarios d) (categorias d)
       (cursos d ++ [Curso.mk (next_id (map Curso.id (cursos d))) titulo categoria_id])
       (videos d) (inscripciones d).

Definition add_video (titulo url : string) (curso_id : Z) (d : DB) : DB :=
  mkDB (usuarios d) (categorias d) (cursos d)
       (videos d ++ [Video.mk (next_id (map Video.id (videos d))) titulo url curso_id])
       (inscripciones d).

Definition add_inscripcion (usuario_id curso_id : Z) (d : DB) : DB :=
  mkDB (usuarios d) (categorias d) (cursos d) (videos d)
       (inscripciones d ++
          [Inscripcion.mk (next_id (map Inscripcion.id (inscripciones d))) usuario_id curso_id]).

Definition update_usuario (id : Z) (f : Usuario.t -> Usuario.t) (d : DB) : DB :=
  mkDB (map (fun u => if Usuario.id u =? id then f u else u) (usuarios d))
       (categorias d) (cursos d) (videos d) (inscripciones d).

Definition update_curso (id : Z) (f : Curso.t -> Curso.t) (d : DB) : DB :=
  mkDB (usuarios d) (categorias d)
       (map (fun c => if Curso.id c =? id then f c else c) (cursos d))
       (videos d) (inscripciones d).

Definition set_reset (token : option string) (expiration : option Z)
    (u : Usuario.t) : Usuario.t :=
  Usuario.mk (Usuario.id u) (Usuario.email u) (Usuario.password_hash u)
             (Usuario.is_admin u) token expiration.

Definition set_password (hash : string) (u : Usuario.t) : Usuario.t :=
  Usuario.mk (Usuario.id u) (Usuario.email u) hash (Usuario.is_admin u)
             (Usuario.reset_token u) (Usuario.token_expiration u).

Definition set_curso (titulo : string) (categoria_id : Z) (c : Curso.t) : Curso.t :=
  Curso.mk (Curso.id c) titulo categoria_id.

(** [db.session.delete(row)] followed by a commit.  No relationship of the
    models declares a delete cascade, so when the unit of work deletes a
    parent row it first sets the foreign key of every child row of its
    relationships to NULL.  The foreign keys are [nullable=False]: with a
    child row present the commit raises [IntegrityError], the transaction
    is rolled back and nothing is deleted ([None]).  A [Video] is the
    parent of nothing. *)
Definition delete_curso (c : Curso.t) (d : DB) : option DB :=
  match Curso_videos d c, Curso_inscritos d c with
  | [], [] =>
      Some (mkDB (usuarios d) (categorias d)
                 (filter (fun k => negb (Curso.id k =? Curso.id c)) (cursos d))
                 (videos d) (inscripciones d))
  | _, _ => None
  end.

Definition delete_categoria (c : Categoria.t) (d : DB) : option DB :=
  match Categoria_cursos d c with
  | [] =>
      Some (mkDB (usuarios d)
                 (filter (fun k => negb (Categoria.id k =? Categoria.id c)) (categorias d))
                 (cursos d) (videos d) (inscripciones d))
  | _ => None
  end.

Definition delete_video (v : Video.t) (d : DB) : DB :=
  mkDB (usuarios d) (categorias d) (cursos d)
       (filter (fun k => negb (Video.id k =? Video.id v)) (videos d))
       (inscripciones d).

(** ** Requests and outcomes *)

(** What a request reads from outside the store: the clock
    ([datetime.utcnow()]), the token [secrets.token_urlsafe(16)] returns,
    werkzeug's two password functions (a new hash is salted at random, so
    the functions are the request's) and the host the external links are
    built on. *)
Record Env := mkEnv {
  utcnow : Z;
  token_urlsafe : string;
  generate_password_hash : string -> string;
  check_password_hash : string -> string -> bool;
  host_url : string
}.

(** [timedelta(hours=1)] *)
Definition one_hour : Z := 3600 * 1000000.

(** A view answers [GET], and [POST] with its form where the route lists
    it; a posted form has every field the view reads. *)
Inductive request (F : Type) : Type :=
| GET
| POST (form : F).

Arguments GET {F}.
Arguments POST {F} form.

Record Credenciales := mkCredenciales {
  form_email : string;
  form_password : string
}.

Record CursoForm := mkCursoForm {
  form_titulo : string;
  form_categoria_id : Z
}.

Record VideoForm := mkVideoForm {
  form_video_titulo : string;
  form_url : string;
  form_curso_id : Z
}.

(** The values handed to a template. *)
Inductive Value : Type :=
| VCategoria (c : Categoria.t)
| VCategorias (l : list Categoria.t)
| VCurso (c : Curso.t)
| VCursos (l : list Curso.t)
| VVideos (l : list Video.t)
| VString (s : string).

(** A view renders a template, redirects to an endpoint, aborts with a
    status or dies with an exception; a command returns. *)
Inductive Body : Type :=
| render_template (template : string) (context : list (string * Value))
| redirect (endpoint : string) (values : list (string * Z))
| abort (code : Z)
| raised (exception : string)
| returned.

(** [login_user] and [logout_user] rebind the principal of the session. *)
Inductive SessionEffect : Type :=
| Keep
| LoginUser (id : Z)
| LogoutUser.

(** What a view does: the snapshots of the store it commits, in order, the
    messages it flashes, the lines it prints, and its response.  Changes
    that are not committed are dropped with the request. *)
Record Outcome := mkOutcome {
  commits : list DB;
  flashed : list string;
  printed : list string;
  session : SessionEffect;
  body : Body
}.

Definition respond (b : Body) : Outcome := mkOutcome [] [] [] Keep b.

Definition flash (message : string) (b : Body) : Outcome :=
  mkOutcome [] [message] [] Keep b.

(** The store after the request: its last commit. *)
Definition persisted (d : DB) (o : Outcome) : DB := last (commits o) d.

(** [load_user] and [current_user]: the session holds a user id. *)
Definition load_user (d : DB) (user_id : Z) : option Usuario.t :=
  get Usuario.id (usuarios d) user_id.

Definition current_user (d : DB) (cookie : option Z) : option Usuario.t :=
  match cookie with
  | Some user_id => load_user d user_id
  | None => None
  end.

(** [@login_required]: an anonymous request is sent to [login_view] with
    flask_login's message (the [next] argument of the redirect is left out). *)
Definition login_required (cu : option Usuario.t) (view : Usuario.t -> Outcome) : Outcome :=
  match cu with
  | Some u => view u
  | None => flash "Please log in to access this page." (redirect "login" [])
  end.

Definition dq : string := String (ascii_of_nat 34) EmptyString.

(** ** The routes *)

Definition index (cu : option Usuario.t) (d : DB) : Outcome :=
  match cu with
  | Some _ => respond (render_template "inicio.html" [("categorias", VCategorias (categorias d))])
  | None => respond (redirect "login" [])
  end.

(** A new [Usuario] takes the column default [is_admin = False]. *)
Definition registro (env : Env) (req : request Credenciales) (d : DB) : Outcome :=
  match req with
  | POST form =>
      let email := form_email form in
      let password := form_password form in
      match first (fun u => String.eqb (Usuario.email u) email) (usuarios d) with
      | Some _ => flash "El correo ya existe." (redirect "registro" [])
      | None =>
          mkOutcome [add_usuario email (generate_password_hash env password) false d]
                    ["Cuenta creada. Por favor inicia sesión."] [] Keep
                    (redirect "login" [])
      end
  | GET => respond (render_template "registro.html" [])
  end.

Definition login (env : Env) (req : request Credenciales) (d : DB) : Outcome :=
  match req with
  | POST form =>
      let email := form_email form in
      let password := form_password form in
      match first (fun u => String.eqb (Usuario.email u) email) (usuarios d) with
      | Some usuario =>
          if check_password_hash env (Usuario.password_hash usuario) password
          then mkOutcome [] [] [] (LoginUser (Usuario.id usuario)) (redirect "index" [])
          else flash "Correo o contraseña incorrectos." (render_template "login.html" [])
      | None => flash "Correo o contraseña incorrectos." (render_template "login.html" [])
      end
  | GET => respond (render_template "login.html" [])
  end.

Definition ver_categoria (cu : option Usuario.t) (id_categoria : Z) (d : DB) : Outcome :=
  login_required cu (fun _ =>
    match get Categoria.id (categorias d) id_categoria with
    | None => respond (abort 404)
    | Some categoria =>
        respond (render_template "categoria.html"
                   [("categoria", VCategoria categoria);
                    ("cursos", VCursos (Categoria_cursos d categoria))])
    end).

Definition logout (cu : option Usuario.t) : Outcome :=
  login_required cu (fun _ => mkOutcome [] [] [] LogoutUser (redirect "login" [])).

Definition inscribirse (cu : option Usuario.t) (id_curso : Z) (d : DB) : Outcome :=
  login_required cu (fun current_user =>
    match get Curso.id (cursos d) id_curso with
    | None => respond (abort 404)
    | Some curso =>
        let inscripcion_existente :=
          first (fun i => (Inscripcion.usuario_id i =? Usuario.id current_user)
                          && (Inscripcion.curso_id i =? id_curso))
                (inscripciones d) in
        match inscripcion_existente with
        | None =>
            mkOutcome [add_inscripcion (Usuario.id current_user) id_curso d]
                      ["¡Te has inscrito en " ++ Curso.titulo curso ++ " exitosamente!"]
                      [] Keep (redirect "ver_curso" [("id_curso", id_curso)])
        | Some _ =>
            flash "Ya estás inscrito en este curso."
                  (redirect "ver_curso" [("id_curso", id_curso)])
        end
    end).

Definition admin_dashboard (cu : option Usuario.t) (d : DB) : Outcome :=
  login_required cu (fun current_user =>
    if negb (Usuario.is_admin current_user)
    then flash "¡Alto ahí! No tienes permisos de administrador." (redirect "index" [])
    else respond (render_template "admin_dashboard.html"
                    [("categorias", VCategorias (categorias d));
                     ("cursos", VCursos (cursos d));
                     ("videos", VVideos (videos d))])).

Definition crear_categoria (cu : option Usuario.t) (req : request string) (d : DB) : Outcome :=
  login_required cu (fun current_user =>
    if negb (Usuario.is_admin current_user)
    then respond (redirect "index" [])
    else
      match req with
      | POST nombre_categoria =>
          match first (fun c => String.eqb (Categoria.nombre c) nombre_categoria)
                      (categorias d) with
          | Some _ =>
              flash "¡Esa categoría ya existe!" (render_template "crear_categoria.html" [])
          | None =>
              mkOutcome [add_categoria nombre_categoria d]
                        ["Categoría " ++ dq ++ nombre_categoria ++ dq ++ " creada correctamente."]
                        [] Keep (redirect "admin_dashboard" [])
          end
      | GET => respond (render_template "crear_categoria.html" [])
      end).

Definition ver_curso (cu : option Usuario.t) (id_curso : Z) (d : DB) : Outcome :=
  login_required cu (fun current_user =>
    match get Curso.id (cursos d) id_curso with
    | None => respond (abort 404)
    | Some curso =>
        let tiene_permiso :=
          first (fun i => (Inscripcion.usuario_id i =? Usuario.id current_user)
                          && (Inscripcion.curso_id i =? id_curso))
                (inscripciones d) in
        match tiene_permiso with
        | None =>
            flash "Debes inscribirte para ver este contenido."
                  (render_template "curso_no_autorizado.html" [("curso", VCurso curso)])
        | Some _ => respond (render_template "ver_curso.html" [("curso", VCurso curso)])
        end
    end).

(** The form's [categoria_id] is the value of a [select] over the stored
    categories; the local store does not check the foreign key. *)
Definition crear_curso (cu : option Usuario.t) (req : request CursoForm) (d : DB) : Outcome :=
  login_required cu (fun current_user =>
    if negb (Usuario.is_admin current_user)
    then respond (redirect "index" [])
    else
      match req with
      | POST form =>
          let titulo_curso := form_titulo form in
          let id_categoria := form_categoria_id form in
          mkOutcome [add_curso titulo_curso id_categoria d]
                    ["Curso " ++ dq ++ titulo_curso ++ dq ++ " creado exitosamente."]
                    [] Keep (redirect "admin_dashboard" [])
      | GET =>
          respond (render_template "crear_curso.html"
                     [("categorias", VCategorias (categorias d))])
      end).

(** The link rewriting of [crear_video]. *)
Definition url_final (url_original : string) : string :=
  if PyStr.contains "watch?v=" url_original
  then PyStr.replace "watch?v=" "embed/" url_original
  else if PyStr.contains "youtu.be/" url_original
  then PyStr.replace "youtu.be/" "www.youtube.com/embed/" url_original
  else url_original.

Definition crear_video (cu : option Usuario.t) (req : request VideoForm) (d : DB) : Outcome :=
  login_required cu (fun current_user =>
    if negb (Usuario.is_admin current_user)
    then respond (redirect "index" [])
    else
      match req with
      | POST form =>
          let titulo := form_video_titulo form in
          let url_original := form_url form in
          let curso_id := form_curso_id form in
          mkOutcome [add_video titulo (url_final url_original) curso_id d]
                    ["Video " ++ dq ++ titulo ++ dq ++ " agregado al curso."]
                    [] Keep (redirect "admin_dashboard" [])
      | GET => respond (render_template "crear_video.html" [("cursos", VCursos (cursos d))])
      end).

Definition borrar_curso (cu : option Usuario.t) (id : Z) (d : DB) : Outcome :=
  login_required cu (fun current_user =>
    if negb (Usuario.is_admin current_user)
    then respond (redirect "index" [])
    else
      match get Curso.id (cursos d) id with
      | None => respond (abort 404)
      | Some curso =>
          match delete_curso curso d with
          | None => respond (raised "IntegrityError")
          | Some d' =>
              mkOutcome [d'] ["Curso " ++ dq ++ Curso.titulo curso ++ dq ++ " eliminado."]
                        [] Keep (redirect "admin_dashboard" [])
          end
      end).

Definition borrar_categoria (cu : option Usuario.t) (id : Z) (d : DB) : Outcome :=
  login_required cu (fun current_user =>
    if negb (Usuario.is_admin current_user)
    then respond (redirect "index" [])
    else
      match get Categoria.id (categorias d) id with
      | None => respond (abort 404)
      | Some cat =>
          match delete_categoria cat d with
          | None => respond (raised "IntegrityError")
          | Some d' =>
              mkOutcome [d'] ["Categoría " ++ dq ++ Categoria.nombre cat ++ dq ++ " eliminada."]
                        [] Keep (redirect "admin_dashboard" [])
          end
      end).

Definition borrar_video (cu : option Usuario.t) (id : Z) (d : DB) : Outcome :=
  login_required cu (fun current_user =>
    if negb (Usuario.is_admin current_user)
    then respond (redirect "index" [])
    else
      match get Video.id (videos d) id with
      | None => respond (abort 404)
      | Some video =>
          mkOutcome [delete_video video d] ["Video eliminado correctamente."]
                    [] Keep (redirect "admin_dashboard" [])
      end).

Definition editar_curso (cu : option Usuario.t) (id : Z) (req : request CursoForm) (d : DB)
    : Outcome :=
  login_required cu (fun current_user =>
    if negb (Usuario.is_admin current_user)
    then respond (redirect "index" [])
    else
      match get Curso.id (cursos d) id with
      | None => respond (abort 404)
      | Some curso =>
          match req with
          | POST form =>
              mkOutcome [update_curso (Curso.id curso)
                           (set_curso (form_titulo form) (form_categoria_id form)) d]
                        ["Curso actualizado exitosamente."]
                        [] Keep (redirect "admin_dashboard" [])
          | GET =>
              respond (render_template "editar_curso.html"
                         [("curso", VCurso curso);
                          ("categorias", VCategorias (categorias d))])
          end
      end).

(** [url_for('reset_password', token=token, _external=True)] *)
Definition link_recuperacion (env : Env) (token : string) : string :=
  host_url env ++ "reset-password/" ++ token.

Definition olvide_password (env : Env) (req : request string) (d : DB) : Outcome :=
  match req with
  | POST email =>
      match first (fun u => String.eqb (Usuario.email u) email) (usuarios d) with
      | Some usuario =>
          let token := token_urlsafe env in
          mkOutcome [update_usuario (Usuario.id usuario)
                       (set_reset (Some token) (Some (utcnow env + one_hour))) d]
                    ["Te hemos enviado un correo con las instrucciones (¡Revisa la terminal!)."]
                    ["==============================";
                     "📧 EMAIL SIMULADO DE RECUPERACIÓN";
                     "Para: " ++ email;
                     "Link: " ++ link_recuperacion env token;
                     "=============================="]
                    Keep (redirect "login" [])
      | None =>
          flash "Ese correo no está registrado." (render_template "olvide_password.html" [])
      end
  | GET => respond (render_template "olvide_password.html" [])
  end.

(** The response of [reset_password] to a token that is unknown or expired. *)
Definition invalid_or_expired : Outcome :=
  flash "El enlace es inválido o ha expirado." (redirect "olvide_password" []).

(** The form of [reset_password] holds the new password.  Comparing a
    missing expiration with the clock raises [TypeError]. *)
Definition reset_password (env : Env) (token : string) (req : request string) (d : DB)
    : Outcome :=
  match first (fun u => option_eqb (Usuario.reset_token u) token) (usuarios d) with
  | None => invalid_or_expired
  | Some usuario =>
      match Usuario.token_expiration usuario with
      | None => respond (raised "TypeError")
      | Some expiration =>
          if expiration <? utcnow env
          then invalid_or_expired
          else
            match req with
            | POST nueva_pass =>
                mkOutcome [update_usuario (Usuario.id usuario)
                             (fun u => set_reset None None
                                         (set_password (generate_password_hash env nueva_pass) u))
                             d]
                          ["¡Contraseña actualizada! Ahora puedes iniciar sesión."]
                          [] Keep (redirect "login" [])
            | GET =>
                respond (render_template "reset_password.html" [("token", VString token)])
            end
      end
  end.

(** ** The [init-data] command

    Four commits.  [Categoria.nombre] and [Usuario.email] are unique
    columns: a commit that would store a name or an email twice raises
    [IntegrityError], and the command stops there with the earlier commits
    kept. *)
Definition init_data (env : Env) (d : DB) : Outcome :=
  let nombres := ["SQL y Bases de Datos"; "Python desde Cero"; "Desarrollo Web"] in
  if existsb (fun c => existsb (String.eqb (Categoria.nombre c)) nombres) (categorias d)
  then respond (raised "IntegrityError")
  else
    let cat_sql := next_id (map Categoria.id (categorias d)) in
    let da := add_categoria "SQL y Bases de Datos" d in
    let cat_python := next_id (map Categoria.id (categorias da)) in
    let db := add_categoria "Python desde Cero" da in
    let d1 := add_categoria "Desarrollo Web" db in
    let curso1 := next_id (map Curso.id (cursos d1)) in
    let dc := add_curso "SQL para Principiantes" cat_sql d1 in
    let curso2 := next_id (map Curso.id (cursos dc)) in
    let dd := add_curso "Consultas Avanzadas MySQL" cat_sql dc in
    let d2 := add_curso "Introducción a Python" cat_python dd in
    let d3 :=
      add_video "Hola Mundo en Python" "https://www.youtube.com/embed/DcojabcVqTE" curso2
        (add_video "Select y From" "https://www.youtube.com/embed/yPu6qV5byu4" curso1
           (add_video "Instalación de MySQL" "https://www.youtube.com/embed/WuBcTJnIuzo"
              curso1 d2)) in
    if existsb (fun u => String.eqb (Usuario.email u) "admin@cursos.com") (usuarios d3)
    then mkOutcome [d1; d2; d3] [] [] Keep (raised "IntegrityError")
    else
      mkOutcome [d1; d2; d3;
                 add_usuario "admin@cursos.com" (generate_password_hash env "admin123") true d3]
                [] ["¡Datos creados! Usuario Admin: admin@cursos.com / Clave: admin123"]
                Keep returned.

(** [create-db] creates the tables that are missing and touches no row. *)
Definition create_db : Outcome := mkOutcome [] [] ["Base de datos creada"] Keep returned.

(** ** The application as a transition system *)

Inductive Route : Type :=
| Index
| Registro (req : request Credenciales)
| Login (req : request Credenciales)
| VerCategoria (id_categoria : Z)
| Logout
| Inscribirse (id_curso : Z)
| AdminDashboard
| CrearCategoria (req : request string)
| VerCurso (id_curso : Z)
| CrearCurso (req : request CursoForm)
| CrearVideo (req : request VideoForm)
| BorrarCurso (id : Z)
| BorrarCategoria (id : Z)
| BorrarVideo (id : Z)
| EditarCurso (id : Z) (req : request CursoForm)
| OlvidePassword (req : request string)
| ResetPassword (token : string) (req : request string).

(** A request carries the user id of its session, if it has one. *)
Definition dispatch (env : Env) (cookie : option Z) (r : Route) (d : DB) : Outcome :=
  let cu := current_user d cookie in
  match r with
  | Index => index cu d
  | Registro req => registro env req d
  | Login req => login env req d
  | VerCategoria id_categoria => ver_categoria cu id_categoria d
  | Logout => logout cu
  | Inscribirse id_curso => inscribirse cu id_curso d
  | AdminDashboard => admin_dashboard cu d
  | CrearCategoria req => crear_categoria cu req d
  | VerCurso id_curso => ver_curso cu id_curso d
  | CrearCurso req => crear_curso cu req d
  | CrearVideo req => crear_video cu req d
  | BorrarCurso id => borrar_curso cu id d
  | BorrarCategoria id => borrar_categoria cu id d
  | BorrarVideo id => borrar_video cu id d
  | EditarCurso id req => editar_curso cu id req d
  | OlvidePassword req => olvide_password env req d
  | ResetPassword token req => reset_password env token req d
  end.

(** The operations of the administrator. *)
Inductive AdminOp : Type :=
| Dashboard
| CreateCategory (req : request string)
| CreateCourse (req : request CursoForm)
| CreateVideo (req : request VideoForm)
| DeleteCourse (id : Z)
| DeleteCategory (id : Z)
| DeleteVideo (id : Z)
| EditCourse (id : Z) (req : request CursoForm).

Definition admin_route (op : AdminOp) : Route :=
  match op with
  | Dashboard => AdminDashboard
  | CreateCategory req => CrearCategoria req
  | CreateCourse req => CrearCurso req
  | CreateVideo req => CrearVideo req
  | DeleteCourse id => BorrarCurso id
  | DeleteCategory id => BorrarCategoria id
  | DeleteVideo id => BorrarVideo id
  | EditCourse id req => EditarCurso id req
  end.

(** What happens to the store: a request, or one of the two commands. *)
Inductive Event : Type :=
| Request (env : Env) (cookie : option Z) (r : Route)
| InitData (env : Env)
| CreateDb.

Definition outcome (e : Event) (d : DB) : Outcome :=
  match e with
  | Request env cookie r => dispatch env cookie r d
  | InitData env => init_data env d
  | CreateDb => create_db
  end.

Definition exec (e : Event) (d : DB) : DB := persisted d (outcome e d).

Definition run (es : list Event) (d : DB) : DB := fold_left (fun s e => exec e s) es d.

(** The token [secrets] has for an event that asks for one; only a posted
    [olvide_password] can. *)
Definition drawn_token (e : Event) : option string :=
  match e with
  | Request env _ (OlvidePassword (POST _)) => Some (token_urlsafe env)
  | _ => None
  end.

(** The users an event created: those of the new store under an id the old
    store did not have. *)
Definition created_users (d d' : DB) : list Z :=
  map Usuario.id
      (filter (fun u => negb (existsb (Z.eqb (Usuario.id u)) (map Usuario.id (usuarios d))))
              (usuarios d')).

(** The stores the application can be in, each with the ids of the users
    that [init-data] created on the way. *)
Inductive reachable : DB -> list Z -> Prop :=
| reach_empty : reachable empty_db []
| reach_request env cookie r d boot :
    reachable d boot ->
    reachable (exec (Request env cookie r) d) boot
| reach_create_db d boot :
    reachable d boot ->
    reachable (exec CreateDb d) boot
| reach_init_data env d boot :
    reachable d boot ->
    reachable (exec (InitData env) d) (boot ++ created_users d (exec (InitData env) d)).

(** ** Predicates of the statements *)

(** An [Inscripcion] row for the pair exists. *)
Definition inscrito (d : DB) (usuario_id curso_id : Z) : Prop :=
  exists i, In i (inscripciones d)
            /\ Inscripcion.usuario_id i = usuario_id
            /\ Inscripcion.curso_id i = curso_id.

(** The [Inscripcion] rows of a pair. *)
Definition inscripciones_de (d : DB) (usuario_id curso_id : Z) : list Inscripcion.t :=
  filter (fun i => (Inscripcion.usuario_id i =? usuario_id)
                   && (Inscripcion.curso_id i =? curso_id))
         (inscripciones d).

(** A user with this email is stored. *)
Definition registrado (d : DB) (email : string) : Prop :=
  exists u, In u (usuarios d) /\ Usuario.email u = email.

(** The users whose [reset_token] is the given one. *)
Definition holders (token : string) (d : DB) : list Usuario.t :=
  filter (fun u => option_eqb (Usuario.reset_token u) token) (usuarios d).

(** The answer every administrator view gives a user who is not one: it
    depends on neither the store nor the arguments of the operation. *)
Definition denied (op : AdminOp) : Outcome :=
  match op with
  | Dashboard => flash "¡Alto ahí! No tienes permisos de administrador." (redirect "index" [])
  | _ => respond (redirect "index" [])
  end.

(** How one event changes the user table: not at all, by one new row under
    a fresh id with no reset token (an administrator only from [init-data]),
    or by rewriting the rows of one id, keeping id, email and role and
    leaving a reset token that is empty or the one the event drew. *)
Inductive usuarios_step (e : Event) (us us' : list Usuario.t) : Prop :=
| step_same :
    us' = us ->
    usuarios_step e us us'
| step_add (u : Usuario.t) :
    us' = (us ++ [u])%list ->
    Usuario.id u = next_id (map Usuario.id us) ->
    Usuario.reset_token u = None ->
    (Usuario.is_admin u = true -> exists env, e = InitData env) ->
    usuarios_step e us us'
| step_update (id : Z) (f : Usuario.t -> Usuario.t) :
    us' = map (fun u => if Usuario.id u =? id then f u else u) us ->
    (forall u, Usuario.id (f u) = Usuario.id u
               /\ Usuario.email (f u) = Usuario.email u
               /\ Usuario.is_admin (f u) = Usuario.is_admin u
               /\ (Usuario.reset_token (f u) = None
                   \/ Usuario.reset_token (f u) = drawn_token e)) ->
    usuarios_step e us us'.

(** Every administrator of the store is one of the listed ids, and the ids
    of the store are distinct. *)
Definition admins_within (d : DB) (boot : list Z) : Prop :=
  NoDup (map Usuario.id (usuarios d))
  /\ forall u, In u (usuarios d) -> Usuario.is_admin u = true -> In (Usuario.id u) boot.

(** The tokens [secrets] had for the events of an execution, in order. *)
Definition draws (es : list Event) : list string :=
  flat_map (fun e => match drawn_token e with
                     | Some token => [token]
                     | None => []
                     end) es.

(** The rows that hold the token are rows of one user. *)
Definition one_holder (token : string) (d : DB) : Prop :=
  forall u v, In u (holders token d) -> In v (holders token d) ->
              Usuario.id u = Usuario.id v.

(** Every stored token was handed out during the execution, and two rows
    with the same token are rows of one user. *)
Definition tokens_ok (es : list Event) (d : DB) : Prop :=
  (forall u token,
     In u (usuarios d) -> Usuario.reset_token u = Some token -> In token (draws es))
  /\ (forall u v token,
        In u (usuarios d) -> In v (usuarios d) ->
        Usuario.reset_token u = Some token -> Usuario.reset_token v = Some token ->
        Usuario.id u = Usuario.id v).

(** A user is one row: two rows under the same id are the same row, so a
    user has one [reset_token] and one [token_expiration]. *)
Definition one_row_per_user (d : DB) : Prop :=
  forall v w, In v (usuarios d) -> In w (usuarios d) ->
              Usuario.id v = Usuario.id w -> v = w.

(** A pair of user and course has at most one [Inscripcion] row. *)
Definition unique_pairs (d : DB) : Prop :=
  forall usuario_id curso_id,
    (List.length (inscripciones_de d usuario_id curso_id) <= 1)%nat.

(** ** A sample store

    The scenario of the specification: the user [a@x.com], the administrator
    of [init-data], the category "Math" with the course "Algebra" and one
    video. *)

Definition sample_env : Env :=
  mkEnv 1000 "tok1" (fun p => "hash:" ++ p) (fun h p => String.eqb h ("hash:" ++ p))
        "http://localhost:5000/".

Definition ana : Usuario.t := Usuario.mk 1 "a@x.com" "hash:pw1" false None None.

Definition root : Usuario.t := Usuario.mk 2 "admin@cursos.com" "hash:admin123" true None None.

Definition math : Categoria.t := Categoria.mk 1 "Math".

Definition algebra : Curso.t := Curso.mk 1 "Algebra" 1.

Definition clase : Video.t := Video.mk 1 "Intro" "https://www.youtube.com/embed/ABC123" 1.

Definition sample_db : DB := mkDB [ana; root] [math] [algebra] [clase] [].

(** [a@x.com] after asking for a reset at time 1000 - [one_hour]: the token
    [tok1] expires at 1000, the time of [sample_env]. *)
Definition ana_pending : Usuario.t :=
  Usuario.mk 1 "a@x.com" "hash:pw1" false (Some "tok1") (Some 1000).

Definition pending_db : DB := mkDB [ana_pending; root] [math] [algebra] [clase] [].

(** Two executions from the empty store: [init-data] and the registration
    of [a@x.com]; and the same followed by that user asking for a reset at
    time 1000, which hands out [tok1]. *)
Definition register_trace : list Event :=
  [InitData sample_env;
   Request sample_env None (Registro (POST (mkCredenciales "a@x.com" "pw1")))].

Definition ask_trace : list Event :=
  (register_trace ++ [Request sample_env None (OlvidePassword (POST "a@x.com"))])%list.

(** A later moment, with the next token of [secrets]. *)
Definition redeem_env : Env :=
  mkEnv 2000 "tok2" (generate_password_hash sample_env) (check_password_hash sample_env)
        (host_url sample_env).

(** The scenario end to end: after [init-data], [a@x.com] registers; the
    administrator creates the category "Math", the course "Algebra" in it
    and a video from a [watch?v=] link; the user enrolls. *)
Definition scenario : list Event :=
  [InitData sample_env;
   Request sample_env None (Registro (POST (mkCredenciales "a@x.com" "pw1")));
   Request sample_env (Some 1) (CrearCategoria (POST "Math"));
   Request sample_env (Some 1) (CrearCurso (POST (mkCursoForm "Algebra" 4)));
   Request sample_env (Some 1)
           (CrearVideo (POST (mkVideoForm "Intro" "https://www.youtube.com/watch?v=ABC123" 4)));
   Request sample_env (Some 2) (Inscribirse 4)].

(** ** Predicates of the further statements *)

(** The views behind [@login_required], and [index], which sends an
    anonymous visitor to [login] itself. *)
Definition protected (r : Route) : bool :=
  match r with
  | Registro _ | Login _ | OlvidePassword _ | ResetPassword _ _ => false
  | _ => true
  end.

(** A course with this id is stored. *)
Definition curso_exists (d : DB) (id : Z) : Prop :=
  exists c, In c (cursos d) /\ Curso.id c = id.

(** Every foreign key of the store names a stored row. *)
Definition referential_integrity (d : DB) : Prop :=
  (forall k, In k (cursos d) ->
             exists c, In c (categorias d) /\ Categoria.id c = Curso.categoria_id k)
  /\ (forall v, In v (videos d) -> curso_exists d (Video.curso_id v))
  /\ (forall i, In i (inscripciones d) ->
                curso_exists d (Inscripcion.curso_id i)
                /\ exists u, In u (usuarios d) /\ Usuario.id u = Inscripcion.usuario_id i).

(** The id a view looks up with [get_or_404] is not stored. *)
Definition missing_target (r : Route) (d : DB) : Prop :=
  match r with
  | VerCategoria id | BorrarCategoria id => get Categoria.id (categorias d) id = None
  | Inscribirse id | VerCurso id | BorrarCurso id | EditarCurso id _ =>
      get Curso.id (cursos d) id = None
  | BorrarVideo id => get Video.id (videos d) id = None
  | _ => False
  end.

(** Three conditions under which replacing [old] by [new] in a string
    leaves no occurrence of a pattern: no occurrence of the pattern can
    start inside [new] ([inert]); none can run into the start of [new]
    ([blocked]); and the string has none to begin with, except where an
    occurrence of [old] starts ([guarded]). *)
Fixpoint inert (pattern new : string) : Prop :=
  match new with
  | EmptyString => True
  | String _ rest =>
      (forall x, prefix pattern (new ++ x) = false) /\ inert pattern rest
  end.

Fixpoint blocked (new pattern : string) : Prop :=
  match pattern with
  | EmptyString => True
  | String _ rest =>
      (forall x, prefix pattern (new ++ x) = false) /\ blocked new rest
  end.

Fixpoint guarded (pattern old s : string) : Prop :=
  (prefix pattern s = true -> prefix old s = true)
  /\ match s with
     | EmptyString => True
     | String _ rest => guarded pattern old rest
     end.

(** * Theorems *)

Example replace_watch :
  PyStr.replace "watch?v=" "embed/" "https://www.youtube.com/watch?v=ABC123"
  = "https://www.youtube.com/embed/ABC123".
Proof. reflexivity. Qed.

Example replace_leftmost : PyStr.replace "aa" "b" "aaaaa" = "bba".
Proof. reflexivity. Qed.

Example replace_empty_pattern : PyStr.replace "" "-" "xy" = "-x-y-".
Proof. reflexivity. Qed.

(** ** Lookups *)

Lemma option_eqb_eq (a : option string) (b : string) :
  option_eqb a b = true <-> a = Some b.
Proof.
  destruct a as [x|]; simpl.
  - rewrite String.eqb_eq. split; congruence.
  - split; discriminate.
Qed.

Lemma first_pair_some (d : DB) (uid cid : Z) (i : Inscripcion.t) :
  first (fun i => (Inscripcion.usuario_id i =? uid) && (Inscripcion.curso_id i =? cid))
        (inscripciones d) = Some i ->
  inscrito d uid cid.
Proof.
  intros H. apply find_some in H. destruct H as [Hin Hc].
  apply andb_true_iff in Hc. destruct Hc as [Hu Hk].
  exists i. split; [exact Hin|]. split; lia.
Qed.

Lemma first_pair_none (d : DB) (uid cid : Z) :
  first (fun i => (Inscripcion.usuario_id i =? uid) && (Inscripcion.curso_id i =? cid))
        (inscripciones d) = None ->
  ~ inscrito d uid cid.
Proof.
  intros H [i [Hin [Hu Hk]]].
  pose proof (find_none _ _ H i Hin) as Hf. simpl in Hf.
  apply andb_false_iff in Hf. destruct Hf; lia.
Qed.

Lemma get_curso_id (d : DB) (id : Z) (c : Curso.t) :
  get Curso.id (cursos d) id = Some c -> In c (cursos d) /\ Curso.id c = id.
Proof.
  intros H. apply find_some in H. destruct H as [Hin Hc]. split; [exact Hin | lia].
Qed.

(** ** Viewing a course *)

(** C1: for the logged-in user [u] and an existing course, [ver_curso]
    renders the course page exactly when an [Inscripcion] row of the pair
    exists.  Without one it renders the not-authorized page with its notice,
    neither a 404 nor an exception.  Either way nothing is committed, and
    the course handed to the template is the one asked for. *)
Theorem ver_curso_authorized_iff_inscrito :
  forall (d : DB) (cookie : option Z) (u : Usuario.t) (id_curso : Z) (curso : Curso.t),
    current_user d cookie = Some u ->
    get Curso.id (cursos d) id_curso = Some curso ->
    (body (ver_curso (current_user d cookie) id_curso d)
       = render_template "ver_curso.html" [("curso", VCurso curso)]
     <-> inscrito d (Usuario.id u) id_curso)
    /\ (~ inscrito d (Usuario.id u) id_curso ->
        ver_curso (current_user d cookie) id_curso d
        = flash "Debes inscribirte para ver este contenido."
                (render_template "curso_no_autorizado.html" [("curso", VCurso curso)]))
    /\ commits (ver_curso (current_user d cookie) id_curso d) = []
    /\ Curso_videos d curso
       = filter (fun v => Video.curso_id v =? id_curso) (videos d).
Proof.
  intros d cookie u id_curso curso Hu Hc.
  pose proof (get_curso_id _ _ _ Hc) as [_ Hid].
  unfold ver_curso, login_required. rewrite Hu, Hc.
  destruct (first _ (inscripciones d)) as [i|] eqn:Hf.
  - pose proof (first_pair_some _ _ _ _ Hf) as Hin.
    repeat split; auto.
    + intros Hn. contradiction.
    + unfold Curso_videos. rewrite Hid. reflexivity.
  - pose proof (first_pair_none _ _ _ Hf) as Hn.
    repeat split; auto.
    + simpl. intros H. discriminate H.
    + intros H. contradiction.
    + unfold Curso_videos. rewrite Hid. reflexivity.
Qed.

Lemma ver_curso_witness :
  (body (ver_curso (current_user sample_db (Some 1)) 1 sample_db)
     = render_template "ver_curso.html" [("curso", VCurso algebra)]
   <-> inscrito sample_db (Usuario.id ana) 1)
  /\ (~ inscrito sample_db (Usuario.id ana) 1 ->
      ver_curso (current_user sample_db (Some 1)) 1 sample_db
      = flash "Debes inscribirte para ver este contenido."
              (render_template "curso_no_autorizado.html" [("curso", VCurso algebra)]))
  /\ commits (ver_curso (current_user sample_db (Some 1)) 1 sample_db) = []
  /\ Curso_videos sample_db algebra
     = filter (fun v => Video.curso_id v =? 1) (videos sample_db).
Proof.
  apply (ver_curso_authorized_iff_inscrito sample_db (Some 1) ana 1 algebra);
    reflexivity.
Defined.

(** ** The administrator guard *)

(** C3: a logged-in user whose [is_admin] is false gets, from every
    administrator view, the fixed denial: a redirect to [index] that commits
    nothing, so the store is as before; the answer carries no row of the
    store and does not depend on what was asked. *)
Theorem non_admin_is_denied :
  forall (env : Env) (d : DB) (cookie : option Z) (u : Usuario.t) (op : AdminOp),
    current_user d cookie = Some u ->
    Usuario.is_admin u = false ->
    dispatch env cookie (admin_route op) d = denied op
    /\ body (dispatch env cookie (admin_route op) d) = redirect "index" []
    /\ commits (dispatch env cookie (admin_route op) d) = []
    /\ exec (Request env cookie (admin_route op)) d = d.
Proof.
  intros env d cookie u op Hu Hadmin.
  assert (H : dispatch env cookie (admin_route op) d = denied op).
  { destruct op; simpl;
      unfold admin_dashboard, crear_categoria, crear_curso, crear_video, borrar_curso,
        borrar_categoria, borrar_video, editar_curso, login_required;
      rewrite Hu, Hadmin; reflexivity. }
  unfold exec, outcome, persisted. rewrite H.
  destruct op; repeat split; reflexivity.
Qed.

Lemma non_admin_is_denied_witness :
  dispatch sample_env (Some 1) (admin_route (DeleteCourse 1)) sample_db
  = denied (DeleteCourse 1)
  /\ body (dispatch sample_env (Some 1) (admin_route (DeleteCourse 1)) sample_db)
     = redirect "index" []
  /\ commits (dispatch sample_env (Some 1) (admin_route (DeleteCourse 1)) sample_db) = []
  /\ exec (Request sample_env (Some 1) (admin_route (DeleteCourse 1))) sample_db = sample_db.
Proof.
  apply (non_admin_is_denied sample_env sample_db (Some 1) ana (DeleteCourse 1));
    reflexivity.
Defined.

(** ** Link rewriting *)

Lemma crear_video_stores (admin : Usuario.t) (form : VideoForm) (d : DB) :
  Usuario.is_admin admin = true ->
  videos (persisted d (crear_video (Some admin) (POST form) d))
  = (videos d ++ [Video.mk (next_id (map Video.id (videos d))) (form_video_titulo form)
                           (url_final (form_url form)) (form_curso_id form)])%list.
Proof.
  intros Hadmin. unfold crear_video, login_required. rewrite Hadmin. reflexivity.
Qed.

(** C8, as stated, fails: a link can contain [/embed/] and still be
    rewritten, here because it also contains [youtu.be/]. *)
Lemma embed_link_rewritten :
  PyStr.contains "/embed/" "https://youtu.be/embed/ABC123" = true
  /\ videos (persisted empty_db
               (crear_video (Some root)
                  (POST (mkVideoForm "Intro" "https://youtu.be/embed/ABC123" 1)) empty_db))
     = [Video.mk 1 "Intro" "https://www.youtube.com/embed/embed/ABC123" 1].
Proof. split; reflexivity. Qed.

(** C8, amended: the video an administrator creates is stored with the
    rewritten link; the [watch?v=] link and the [youtu.be] link of the
    specification both become the [embed] link, and a link that contains
    neither [watch?v=] nor [youtu.be/] is stored as it is. *)
Theorem crear_video_url_final :
  forall (admin : Usuario.t) (form : VideoForm) (d : DB),
    Usuario.is_admin admin = true ->
    videos (persisted d (crear_video (Some admin) (POST form) d))
    = (videos d ++ [Video.mk (next_id (map Video.id (videos d))) (form_video_titulo form)
                             (url_final (form_url form)) (form_curso_id form)])%list
    /\ url_final "https://www.youtube.com/watch?v=ABC123"
       = "https://www.youtube.com/embed/ABC123"
    /\ url_final "https://youtu.be/ABC123" = "https://www.youtube.com/embed/ABC123"
    /\ (PyStr.contains "watch?v=" (form_url form) = false ->
        PyStr.contains "youtu.be/" (form_url form) = false ->
        url_final (form_url form) = form_url form).
Proof.
  intros admin form d Hadmin.
  split; [apply crear_video_stores; exact Hadmin|].
  split; [reflexivity|]. split; [reflexivity|].
  intros Hw Hy. unfold url_final. rewrite Hw, Hy. reflexivity.
Qed.

Lemma crear_video_url_final_witness :
  videos (persisted sample_db
            (crear_video (Some root)
               (POST (mkVideoForm "Dos" "https://www.youtube.com/embed/XYZ" 1)) sample_db))
  = [clase; Video.mk 2 "Dos" "https://www.youtube.com/embed/XYZ" 1]
  /\ url_final "https://www.youtube.com/embed/XYZ" = "https://www.youtube.com/embed/XYZ".
Proof.
  pose proof (crear_video_url_final root
                (mkVideoForm "Dos" "https://www.youtube.com/embed/XYZ" 1) sample_db
                eq_refl) as [Hstored [_ [_ Hsame]]].
  split.
  - exact Hstored.
  - apply Hsame; reflexivity.
Defined.

(** ** Enrolling *)

Lemma inscripciones_de_nil (d : DB) (uid cid : Z) :
  inscripciones_de d uid cid = [] <-> ~ inscrito d uid cid.
Proof.
  unfold inscripciones_de, inscrito. split.
  - intros Hnil [i [Hin [Hu Hk]]].
    assert (Hi : In i (filter (fun i => (Inscripcion.usuario_id i =? uid)
                                        && (Inscripcion.curso_id i =? cid))
                              (inscripciones d))).
    { apply filter_In. split; [exact Hin|]. apply andb_true_iff. split; lia. }
    rewrite Hnil in Hi. exact Hi.
  - intros Hn.
    destruct (filter _ (inscripciones d)) as [|i rest] eqn:Hf; [reflexivity|].
    exfalso. apply Hn.
    assert (Hi : In i (i :: rest)) by (left; reflexivity).
    rewrite <- Hf in Hi. apply filter_In in Hi. destruct Hi as [Hin Hc].
    apply andb_true_iff in Hc. exists i. split; [exact Hin|]. split; lia.
Qed.

Lemma first_pair_none_iff (d : DB) (uid cid : Z) :
  first (fun i => (Inscripcion.usuario_id i =? uid) && (Inscripcion.curso_id i =? cid))
        (inscripciones d) = None
  <-> ~ inscrito d uid cid.
Proof.
  split; [apply first_pair_none|].
  intros Hn. destruct (first _ (inscripciones d)) as [i|] eqn:Hf; [|reflexivity].
  exfalso. apply Hn. eapply first_pair_some. exact Hf.
Qed.

(** C2: for the logged-in user [u], not yet enrolled in the existing course,
    two calls of [inscribirse] in a row: the first commits one new row and
    flashes the success notice, the second commits nothing and flashes the
    different already-enrolled notice, and the store then holds exactly one
    row of the pair. *)
Theorem inscribirse_twice :
  forall (d : DB) (cookie : option Z) (u : Usuario.t) (id_curso : Z) (curso : Curso.t),
    current_user d cookie = Some u ->
    get Curso.id (cursos d) id_curso = Some curso ->
    ~ inscrito d (Usuario.id u) id_curso ->
    let o1 := inscribirse (current_user d cookie) id_curso d in
    let d1 := persisted d o1 in
    let o2 := inscribirse (current_user d1 cookie) id_curso d1 in
    let d2 := persisted d1 o2 in
    flashed o1 = ["¡Te has inscrito en " ++ Curso.titulo curso ++ " exitosamente!"]
    /\ commits o1 = [add_inscripcion (Usuario.id u) id_curso d]
    /\ o2 = flash "Ya estás inscrito en este curso."
                  (redirect "ver_curso" [("id_curso", id_curso)])
    /\ flashed o2 <> flashed o1
    /\ d2 = d1
    /\ List.length (inscripciones_de d2 (Usuario.id u) id_curso) = 1%nat.
Proof.
  intros d cookie u id_curso curso Hu Hc Hn o1 d1 o2 d2.
  pose proof (proj2 (first_pair_none_iff _ _ _) Hn) as Hf.
  pose proof (proj2 (inscripciones_de_nil _ _ _) Hn) as Hnil.
  assert (Ho1 : o1 = mkOutcome [add_inscripcion (Usuario.id u) id_curso d]
                       ["¡Te has inscrito en " ++ Curso.titulo curso ++ " exitosamente!"]
                       [] Keep (redirect "ver_curso" [("id_curso", id_curso)])).
  { unfold o1, inscribirse, login_required. rewrite Hu, Hc, Hf. reflexivity. }
  assert (Hd1 : d1 = add_inscripcion (Usuario.id u) id_curso d).
  { unfold d1, persisted. rewrite Ho1. reflexivity. }
  assert (Hrows : inscripciones_de d1 (Usuario.id u) id_curso
                  = [Inscripcion.mk (next_id (map Inscripcion.id (inscripciones d)))
                                    (Usuario.id u) id_curso]).
  { rewrite Hd1. unfold inscripciones_de, add_inscripcion. simpl.
    rewrite filter_app. fold (inscripciones_de d (Usuario.id u) id_curso).
    rewrite Hnil. simpl. rewrite !Z.eqb_refl. reflexivity. }
  assert (Ho2 : o2 = flash "Ya estás inscrito en este curso."
                           (redirect "ver_curso" [("id_curso", id_curso)])).
  { unfold o2, inscribirse, login_required.
    assert (Hu1 : current_user d1 cookie = Some u) by (rewrite Hd1; exact Hu).
    assert (Hc1 : get Curso.id (cursos d1) id_curso = Some curso) by (rewrite Hd1; exact Hc).
    rewrite Hu1, Hc1.
    destruct (first _ (inscripciones d1)) as [i|] eqn:Hf1; [reflexivity|].
    apply first_pair_none_iff in Hf1. apply inscripciones_de_nil in Hf1.
    rewrite Hf1 in Hrows. discriminate Hrows. }
  assert (Hd2 : d2 = d1) by (unfold d2, persisted; rewrite Ho2; reflexivity).
  split; [rewrite Ho1; reflexivity|].
  split; [rewrite Ho1; reflexivity|].
  split; [exact Ho2|].
  split.
  - rewrite Ho1, Ho2. simpl. intros H. injection H as H.
    discriminate H.
  - split; [exact Hd2|]. rewrite Hd2, Hrows. reflexivity.
Qed.

Lemma inscribirse_twice_witness :
  let o1 := inscribirse (current_user sample_db (Some 1)) 1 sample_db in
  let d1 := persisted sample_db o1 in
  let o2 := inscribirse (current_user d1 (Some 1)) 1 d1 in
  let d2 := persisted d1 o2 in
  flashed o1 = ["¡Te has inscrito en " ++ Curso.titulo algebra ++ " exitosamente!"]
  /\ commits o1 = [add_inscripcion (Usuario.id ana) 1 sample_db]
  /\ o2 = flash "Ya estás inscrito en este curso." (redirect "ver_curso" [("id_curso", 1)])
  /\ flashed o2 <> flashed o1
  /\ d2 = d1
  /\ List.length (inscripciones_de d2 (Usuario.id ana) 1) = 1%nat.
Proof.
  apply (inscribirse_twice sample_db (Some 1) ana 1 algebra).
  - reflexivity.
  - reflexivity.
  - intros [i [Hin _]]. exact Hin.
Defined.

(** ** Asking for a password reset *)

Lemma first_email_some (d : DB) (email : string) (u : Usuario.t) :
  first (fun u => String.eqb (Usuario.email u) email) (usuarios d) = Some u ->
  In u (usuarios d) /\ Usuario.email u = email.
Proof.
  intros H. apply find_some in H. destruct H as [Hin He].
  split; [exact Hin | apply String.eqb_eq; exact He].
Qed.

Lemma first_email_none (d : DB) (email : string) :
  first (fun u => String.eqb (Usuario.email u) email) (usuarios d) = None ->
  ~ registrado d email.
Proof.
  intros H [u [Hin He]].
  pose proof (find_none _ _ H u Hin) as Hf. simpl in Hf.
  apply String.eqb_neq in Hf. contradiction.
Qed.

(** C7, as stated, fails: the same form posted with the email of a stored
    user and with an email nobody has is answered with two different
    responses and two different notices. *)
Lemma olvide_password_tells_emails_apart :
  body (olvide_password sample_env (POST "a@x.com") sample_db) = redirect "login" []
  /\ body (olvide_password sample_env (POST "b@x.com") sample_db)
     = render_template "olvide_password.html" []
  /\ flashed (olvide_password sample_env (POST "a@x.com") sample_db)
     <> flashed (olvide_password sample_env (POST "b@x.com") sample_db).
Proof.
  split; [reflexivity|]. split; [reflexivity|].
  simpl. intros H. discriminate H.
Qed.

(** C7, amended: [olvide_password] answers a posted email by whether a user
    has it.  It redirects to [login] with the instructions notice exactly
    when the email is registered, and then it commits once; for any other
    email it shows the form again with the notice that the email is not
    registered and commits nothing. *)
Theorem olvide_password_discloses :
  forall (env : Env) (email : string) (d : DB),
    (registrado d email
     <-> body (olvide_password env (POST email) d) = redirect "login" [])
    /\ (registrado d email ->
        flashed (olvide_password env (POST email) d)
        = ["Te hemos enviado un correo con las instrucciones (¡Revisa la terminal!)."]
        /\ List.length (commits (olvide_password env (POST email) d)) = 1%nat)
    /\ (~ registrado d email ->
        olvide_password env (POST email) d
        = flash "Ese correo no está registrado."
                (render_template "olvide_password.html" [])).
Proof.
  intros env email d. unfold olvide_password.
  destruct (first _ (usuarios d)) as [u|] eqn:Hf.
  - pose proof (first_email_some _ _ _ Hf) as [Hin He].
    assert (Hr : registrado d email) by (exists u; split; assumption).
    repeat split; auto. intros Hn. contradiction.
  - pose proof (first_email_none _ _ Hf) as Hn.
    repeat split; auto; try contradiction.
    simpl. intros H. discriminate H.
Qed.

(** ** Redeeming a reset token *)

Lemma invalid_or_expired_body (o : Outcome) :
  o = invalid_or_expired -> body o = redirect "olvide_password" [].
Proof. intros H. rewrite H. reflexivity. Qed.

(** C6, as stated, fails at the boundary: a token whose expiration is the
    current time is still redeemed. *)
Lemma token_expiring_now_is_redeemed :
  Usuario.token_expiration ana_pending = Some (utcnow sample_env)
  /\ reset_password sample_env "tok1" (POST "pw2") pending_db <> invalid_or_expired
  /\ body (reset_password sample_env "tok1" (POST "pw2") pending_db) = redirect "login" []
  /\ usuarios (persisted pending_db (reset_password sample_env "tok1" (POST "pw2") pending_db))
     = [Usuario.mk 1 "a@x.com" "hash:pw2" false None None; root].
Proof.
  split; [reflexivity|]. split.
  - intros H. apply invalid_or_expired_body in H. discriminate H.
  - split; reflexivity.
Qed.

(** C6, amended: [reset_password] answers with the invalid-or-expired notice
    exactly when no user holds the token or the stored expiration of the
    user found is strictly before the current time; it then commits
    nothing.  A token whose expiration is the current time is redeemed. *)
Theorem reset_password_invalid_or_expired_iff :
  forall (env : Env) (token : string) (req : request string) (d : DB),
    (reset_password env token req d = invalid_or_expired
     <-> (holders token d = []
          \/ exists u expiration,
               first (fun u => option_eqb (Usuario.reset_token u) token) (usuarios d) = Some u
               /\ Usuario.token_expiration u = Some expiration
               /\ expiration < utcnow env))
    /\ commits invalid_or_expired = []
    /\ (forall u nueva_pass,
          first (fun u => option_eqb (Usuario.reset_token u) token) (usuarios d) = Some u ->
          Usuario.token_expiration u = Some (utcnow env) ->
          body (reset_password env token (POST nueva_pass) d) = redirect "login" []).
Proof.
  intros env token req d. split; [|split; [reflexivity|]].
  - unfold reset_password, holders, first.
    destruct (find _ (usuarios d)) as [u|] eqn:Hf.
    + assert (Hne : filter (fun u => option_eqb (Usuario.reset_token u) token) (usuarios d)
                    <> []).
      { apply find_some in Hf. destruct Hf as [Hin Ht]. intros Hnil.
        assert (Hi : In u (filter (fun u => option_eqb (Usuario.reset_token u) token)
                                  (usuarios d)))
          by (apply filter_In; split; assumption).
        rewrite Hnil in Hi. exact Hi. }
      destruct (Usuario.token_expiration u) as [e|] eqn:He.
      * destruct (e <? utcnow env) eqn:Hlt.
        -- split; [|reflexivity]. intros _. right. exists u, e.
           repeat split; auto. lia.
        -- split.
           ++ intros H. apply invalid_or_expired_body in H.
              destruct req; discriminate H.
           ++ intros [Hnil | [u' [e' [Hu' [He' Hlt']]]]]; [contradiction|].
              injection Hu' as Hu'. subst u'. rewrite He in He'.
              injection He' as He'. subst e'. lia.
      * split.
        -- intros H. apply invalid_or_expired_body in H. discriminate H.
        -- intros [Hnil | [u' [e' [Hu' [He' Hlt']]]]]; [contradiction|].
           injection Hu' as Hu'. subst u'. rewrite He in He'. discriminate He'.
    + split; [|reflexivity]. intros _. left.
      destruct (filter _ (usuarios d)) as [|u rest] eqn:Hfl; [reflexivity|].
      exfalso. assert (Hi : In u (u :: rest)) by (left; reflexivity).
      rewrite <- Hfl in Hi. apply filter_In in Hi. destruct Hi as [Hin Ht].
      pose proof (find_none _ _ Hf u Hin) as Hno. simpl in Hno. congruence.
  - intros u nueva_pass Hu He. unfold reset_password. rewrite Hu, He.
    rewrite Z.ltb_irrefl. reflexivity.
Qed.

Lemma reset_password_invalid_or_expired_iff_witness :
  (reset_password sample_env "tok1" (POST "pw2") pending_db = invalid_or_expired
   <-> (holders "tok1" pending_db = []
        \/ exists u expiration,
             first (fun u => option_eqb (Usuario.reset_token u) "tok1") (usuarios pending_db)
             = Some u
             /\ Usuario.token_expiration u = Some expiration
             /\ expiration < utcnow sample_env))
  /\ body (reset_password sample_env "tok1" (POST "pw2") pending_db) = redirect "login" [].
Proof.
  pose proof (reset_password_invalid_or_expired_iff sample_env "tok1" (POST "pw2") pending_db)
    as [Hiff [_ Hnow]].
  split; [exact Hiff|]. apply (Hnow ana_pending "pw2"); reflexivity.
Defined.

(** ** Deleting a course or a category *)

Lemma delete_curso_with_children (c : Curso.t) (d : DB) :
  Curso_videos d c <> [] \/ Curso_inscritos d c <> [] -> delete_curso c d = None.
Proof.
  unfold delete_curso. intros [H | H].
  - destruct (Curso_videos d c); [contradiction | reflexivity].
  - destruct (Curso_videos d c); destruct (Curso_inscritos d c);
      try reflexivity; contradiction.
Qed.

(** Deleting a course that has a video or an enrollment fails for the
    administrator: the commit raises and the store keeps every row. *)
Lemma borrar_curso_with_children
    (admin : Usuario.t) (id : Z) (curso : Curso.t) (d : DB) :
  Usuario.is_admin admin = true ->
  get Curso.id (cursos d) id = Some curso ->
  Curso_videos d curso <> [] \/ Curso_inscritos d curso <> [] ->
  borrar_curso (Some admin) id d = respond (raised "IntegrityError")
  /\ persisted d (borrar_curso (Some admin) id d) = d.
Proof.
  intros Hadmin Hc Hch. unfold borrar_curso, login_required.
  rewrite Hadmin, Hc. simpl. rewrite (delete_curso_with_children _ _ Hch).
  split; reflexivity.
Qed.

Lemma borrar_categoria_with_children
    (admin : Usuario.t) (id : Z) (cat : Categoria.t) (d : DB) :
  Usuario.is_admin admin = true ->
  get Categoria.id (categorias d) id = Some cat ->
  Categoria_cursos d cat <> [] ->
  borrar_categoria (Some admin) id d = respond (raised "IntegrityError")
  /\ persisted d (borrar_categoria (Some admin) id d) = d.
Proof.
  intros Hadmin Hc Hch. unfold borrar_categoria, login_required.
  rewrite Hadmin, Hc. simpl. unfold delete_categoria.
  destruct (Categoria_cursos d cat); [contradiction|]. split; reflexivity.
Qed.

(** C9: in the sample store the course "Algebra" has a video and the
    category "Math" has that course.  The administrator's [borrar_curso]
    and [borrar_categoria] both die with [IntegrityError] and delete
    nothing: the course, its video and the category are all still stored. *)
Theorem borrar_with_children_deletes_nothing :
  borrar_curso (Some root) 1 sample_db = respond (raised "IntegrityError")
  /\ persisted sample_db (borrar_curso (Some root) 1 sample_db) = sample_db
  /\ Curso_videos sample_db algebra = [clase]
  /\ borrar_categoria (Some root) 1 sample_db = respond (raised "IntegrityError")
  /\ persisted sample_db (borrar_categoria (Some root) 1 sample_db) = sample_db
  /\ Categoria_cursos sample_db math = [algebra].
Proof.
  destruct (borrar_curso_with_children root 1 algebra sample_db) as [Hc1 Hc2];
    [reflexivity | reflexivity | left; discriminate |].
  destruct (borrar_categoria_with_children root 1 math sample_db) as [Hk1 Hk2];
    [reflexivity | reflexivity | discriminate |].
  repeat split; assumption || reflexivity.
Qed.

(** ** How the events change the user table *)

Lemma fold_max_above (ids : list Z) (x : Z) : In x ids -> x <= fold_right Z.max 0 ids.
Proof.
  induction ids as [|y ids IH]; simpl; intros H.
  - contradiction.
  - destruct H as [H | H].
    + subst. apply Z.le_max_l.
    + specialize (IH H). pose proof (Z.le_max_r y (fold_right Z.max 0 ids)). lia.
Qed.

Lemma next_id_above (ids : list Z) (x : Z) : In x ids -> x < next_id ids.
Proof. intros H. apply fold_max_above in H. unfold next_id. lia. Qed.

Lemma next_id_fresh (ids : list Z) : ~ In (next_id ids) ids.
Proof. intros H. apply next_id_above in H. lia. Qed.

Ltac open_route :=
  unfold exec, outcome, dispatch, index, registro, login, ver_categoria, logout,
    inscribirse, admin_dashboard, crear_categoria, ver_curso, crear_curso, crear_video,
    borrar_curso, borrar_categoria, borrar_video, editar_curso, olvide_password,
    reset_password, init_data, create_db, invalid_or_expired, login_required, respond,
    flash, persisted.

Ltac split_cases :=
  repeat match goal with
         | |- context [match ?x with _ => _ end] => destruct x eqn:?; simpl
         end.

Lemma delete_curso_usuarios (c : Curso.t) (d d' : DB) :
  delete_curso c d = Some d' -> usuarios d' = usuarios d.
Proof.
  unfold delete_curso. intros H.
  destruct (Curso_videos d c); [|discriminate H].
  destruct (Curso_inscritos d c); [|discriminate H].
  injection H as H. subst d'. reflexivity.
Qed.

Lemma delete_categoria_usuarios (c : Categoria.t) (d d' : DB) :
  delete_categoria c d = Some d' -> usuarios d' = usuarios d.
Proof.
  unfold delete_categoria. intros H.
  destruct (Categoria_cursos d c); [|discriminate H].
  injection H as H. subst d'. reflexivity.
Qed.

Lemma dispatch_usuarios_step (env : Env) (cookie : option Z) (r : Route) (d : DB) :
  usuarios_step (Request env cookie r) (usuarios d)
                (usuarios (exec (Request env cookie r) d)).
Proof.
  destruct r; open_route; simpl; split_cases;
    try (apply step_same; reflexivity);
    try (apply step_same; simpl; eauto using delete_curso_usuarios, delete_categoria_usuarios;
         fail).
  - (* registro *)
    eapply step_add; simpl; try reflexivity. intros H. discriminate H.
  - (* olvide_password *)
    eapply step_update; [reflexivity|]. intros u. simpl. auto.
  - (* reset_password *)
    eapply step_update; [reflexivity|]. intros u. simpl. auto.
Qed.

Lemma init_data_usuarios_step (env : Env) (d : DB) :
  usuarios_step (InitData env) (usuarios d) (usuarios (exec (InitData env) d)).
Proof.
  open_route.
  destruct (existsb _ (categorias d)); simpl; [apply step_same; reflexivity|].
  destruct (existsb _ (usuarios d)); simpl; [apply step_same; reflexivity|].
  eapply step_add; simpl; try reflexivity. intros _. exists env. reflexivity.
Qed.

Lemma exec_usuarios_step (e : Event) (d : DB) :
  usuarios_step e (usuarios d) (usuarios (exec e d)).
Proof.
  destruct e as [env cookie r | env |].
  - apply dispatch_usuarios_step.
  - apply init_data_usuarios_step.
  - apply step_same. reflexivity.
Qed.

(** *** Tokens *)

Lemma holders_nil (token : string) (d : DB) :
  holders token d = []
  <-> forall u, In u (usuarios d) -> Usuario.reset_token u <> Some token.
Proof.
  unfold holders. split.
  - intros Hnil u Hin Ht.
    assert (Hi : In u (filter (fun u => option_eqb (Usuario.reset_token u) token)
                              (usuarios d))).
    { apply filter_In. split; [exact Hin | apply option_eqb_eq; exact Ht]. }
    rewrite Hnil in Hi. exact Hi.
  - intros Hno.
    destruct (filter _ (usuarios d)) as [|u rest] eqn:Hf; [reflexivity|].
    exfalso. assert (Hi : In u (u :: rest)) by (left; reflexivity).
    rewrite <- Hf in Hi. apply filter_In in Hi. destruct Hi as [Hin Ht].
    apply option_eqb_eq in Ht. exact (Hno u Hin Ht).
Qed.

(** An event that does not draw the token leaves it without a holder. *)
Lemma exec_keeps_no_holder (token : string) (e : Event) (d : DB) :
  holders token d = [] ->
  drawn_token e <> Some token ->
  holders token (exec e d) = [].
Proof.
  rewrite !holders_nil. intros Hno Hdraw u Hin Ht.
  destruct (exec_usuarios_step e d) as [Hsame | v Hadd _ Hnone _ | id f Hupd Hf].
  - rewrite Hsame in Hin. exact (Hno u Hin Ht).
  - rewrite Hadd in Hin. apply in_app_or in Hin. destruct Hin as [Hin | [Hin | []]].
    + exact (Hno u Hin Ht).
    + subst v. congruence.
  - rewrite Hupd in Hin. apply in_map_iff in Hin. destruct Hin as [v [Hv Hin]].
    destruct (Usuario.id v =? id).
    + subst u. destruct (Hf v) as [_ [_ [_ [Hn | Hd]]]]; congruence.
    + subst u. exact (Hno v Hin Ht).
Qed.

Lemma run_keeps_no_holder (token : string) (es : list Event) (d : DB) :
  holders token d = [] ->
  Forall (fun e => drawn_token e <> Some token) es ->
  holders token (run es d) = [].
Proof.
  revert d. induction es as [|e es IH]; intros d Hno Hall; simpl.
  - exact Hno.
  - inversion Hall as [|e' es' He Hes]; subst.
    apply IH; [|exact Hes]. apply exec_keeps_no_holder; assumption.
Qed.

Lemma reset_password_no_holder (env : Env) (token : string) (req : request string) (d : DB) :
  holders token d = [] -> reset_password env token req d = invalid_or_expired.
Proof.
  intros Hno. unfold reset_password.
  destruct (first _ (usuarios d)) as [u|] eqn:Hf; [|reflexivity].
  apply find_some in Hf. destruct Hf as [Hin Ht]. apply option_eqb_eq in Ht.
  exfalso. exact (proj1 (holders_nil _ _) Hno u Hin Ht).
Qed.

Lemma first_holder (token : string) (d : DB) (u : Usuario.t) :
  first (fun u => option_eqb (Usuario.reset_token u) token) (usuarios d) = Some u ->
  In u (usuarios d) /\ Usuario.reset_token u = Some token /\ In u (holders token d).
Proof.
  intros Hf. apply find_some in Hf. destruct Hf as [Hin Ht].
  split; [exact Hin|]. split; [apply option_eqb_eq; exact Ht|].
  apply filter_In. split; assumption.
Qed.

(** Rewriting the rows of the user who holds a token so that they hold
    another, or none, leaves the token without a holder. *)
Lemma update_clears_holder (token : string) (d : DB) (u : Usuario.t)
    (f : Usuario.t -> Usuario.t) :
  In u (holders token d) ->
  one_holder token d ->
  (forall v, Usuario.reset_token (f v) <> Some token) ->
  holders token (update_usuario (Usuario.id u) f d) = [].
Proof.
  intros Hu Hone Hf. apply holders_nil. intros w Hin Ht.
  unfold update_usuario in Hin. simpl in Hin.
  apply in_map_iff in Hin. destruct Hin as [v [Hv Hin]].
  destruct (Usuario.id v =? Usuario.id u) eqn:Hid.
  - subst w. exact (Hf v Ht).
  - subst w.
    assert (Hvh : In v (holders token d)).
    { apply filter_In. split; [exact Hin | apply option_eqb_eq; exact Ht]. }
    pose proof (Hone v u Hvh Hu). lia.
Qed.

(** ** Executions whose tokens are all different *)

Lemma draws_app (es es' : list Event) : draws (es ++ es') = (draws es ++ draws es')%list.
Proof. unfold draws. apply flat_map_app. Qed.

Lemma run_app (es es' : list Event) (d : DB) : run (es ++ es') d = run es' (run es d).
Proof. unfold run. apply fold_left_app. Qed.

Lemma draws_one (e : Event) (token : string) :
  drawn_token e = Some token -> draws [e] = [token].
Proof. intros H. unfold draws. simpl. rewrite H. reflexivity. Qed.

Lemma draws_none (e : Event) : drawn_token e = None -> draws [e] = [].
Proof. intros H. unfold draws. simpl. rewrite H. reflexivity. Qed.

Lemma NoDup_app_apart {A : Type} (l l' : list A) (x : A) :
  NoDup (l ++ l') -> In x l -> ~ In x l'.
Proof.
  induction l as [|y l IH]; simpl; intros Hnd Hin Hin'; [contradiction|].
  inversion Hnd as [|y' l0 Hy Hrest]; subst.
  destruct Hin as [Heq | Hin].
  - subst y. apply Hy. apply in_or_app. right. exact Hin'.
  - exact (IH Hrest Hin Hin').
Qed.

Lemma not_drawn (token : string) (es : list Event) :
  ~ In token (draws es) -> Forall (fun e => drawn_token e <> Some token) es.
Proof.
  induction es as [|e es IH]; intros Hn; constructor.
  - intros He. apply Hn. change (e :: es) with ([e] ++ es)%list.
    rewrite draws_app, (draws_one _ _ He). left. reflexivity.
  - apply IH. intros Hin. apply Hn. change (e :: es) with ([e] ++ es)%list.
    rewrite draws_app. apply in_or_app. right. exact Hin.
Qed.

(** One more event, whose token is new, keeps [tokens_ok]. *)
Lemma exec_tokens_ok (es : list Event) (e : Event) (d : DB) :
  tokens_ok es d ->
  (forall token, drawn_token e = Some token -> ~ In token (draws es)) ->
  tokens_ok (es ++ [e]) (exec e d).
Proof.
  intros [Hdrawn Hone] Hnew.
  assert (Hold : forall t, In t (draws es) -> In t (draws (es ++ [e]))).
  { intros t Ht. rewrite draws_app. apply in_or_app. left. exact Ht. }
  assert (Hlast : forall t, drawn_token e = Some t -> In t (draws (es ++ [e]))).
  { intros t Ht. rewrite draws_app, (draws_one _ _ Ht). apply in_or_app. right.
    left. reflexivity. }
  unfold tokens_ok.
  destruct (exec_usuarios_step e d) as [Hsame | n Hadd _ Hnone _ | id f Hupd Hf].
  - rewrite Hsame. split; [|exact Hone].
    intros u t Hu Ht. apply Hold. exact (Hdrawn u t Hu Ht).
  - rewrite Hadd. split.
    + intros u t Hu Ht. apply in_app_or in Hu. destruct Hu as [Hu | [Hu | []]].
      * apply Hold. exact (Hdrawn u t Hu Ht).
      * subst u. congruence.
    + intros u v t Hu Hv Htu Htv.
      apply in_app_or in Hu. apply in_app_or in Hv.
      destruct Hu as [Hu | [Hu | []]]; [|subst u; congruence].
      destruct Hv as [Hv | [Hv | []]]; [|subst v; congruence].
      exact (Hone u v t Hu Hv Htu Htv).
  - rewrite Hupd. split.
    + intros u t Hu Ht. apply in_map_iff in Hu. destruct Hu as [w [Hw Hwin]].
      destruct (Usuario.id w =? id).
      * subst u. destruct (Hf w) as [_ [_ [_ [Hn | Hd]]]]; [congruence|].
        apply Hlast. congruence.
      * subst u. apply Hold. exact (Hdrawn w t Hwin Ht).
    + intros u v t Hu Hv Htu Htv.
      apply in_map_iff in Hu. destruct Hu as [u0 [Hu0 Hu0in]].
      apply in_map_iff in Hv. destruct Hv as [v0 [Hv0 Hv0in]].
      destruct (Usuario.id u0 =? id) eqn:Hui; destruct (Usuario.id v0 =? id) eqn:Hvi;
        subst u v.
      * destruct (Hf u0) as [Hu1 _]. destruct (Hf v0) as [Hv1 _]. lia.
      * exfalso. destruct (Hf u0) as [_ [_ [_ [Hn | Hd]]]]; [congruence|].
        apply (Hnew t); [congruence|]. exact (Hdrawn v0 t Hv0in Htv).
      * exfalso. destruct (Hf v0) as [_ [_ [_ [Hn | Hd]]]]; [congruence|].
        apply (Hnew t); [congruence|]. exact (Hdrawn u0 t Hu0in Htu).
      * exact (Hone u0 v0 t Hu0in Hv0in Htu Htv).
Qed.

(** From the empty store, with tokens that never repeat, [tokens_ok]
    holds all along. *)
Lemma run_tokens_ok (es : list Event) :
  NoDup (draws es) -> tokens_ok es (run es empty_db).
Proof.
  induction es as [|e es IH] using rev_ind; intros Hnd.
  - split; simpl; intros; contradiction.
  - rewrite run_app. simpl. rewrite draws_app in Hnd.
    apply exec_tokens_ok.
    + apply IH. apply NoDup_app_remove_r in Hnd. exact Hnd.
    + intros t Ht Hin. rewrite (draws_one _ _ Ht) in Hnd.
      apply (NoDup_app_apart _ _ t Hnd Hin). left. reflexivity.
Qed.

Lemma tokens_ok_one_holder (es : list Event) (d : DB) (token : string) :
  tokens_ok es d -> one_holder token d.
Proof.
  intros [_ Hone] u v Hu Hv. unfold holders in *.
  apply filter_In in Hu. apply filter_In in Hv.
  destruct Hu as [Hu Htu]. destruct Hv as [Hv Htv].
  apply option_eqb_eq in Htu. apply option_eqb_eq in Htv.
  exact (Hone u v token Hu Hv Htu Htv).
Qed.

Lemma tokens_ok_not_held (es : list Event) (d : DB) (token : string) :
  tokens_ok es d -> ~ In token (draws es) -> holders token d = [].
Proof.
  intros [Hdrawn _] Hn. apply holders_nil. intros u Hu Ht.
  exact (Hn (Hdrawn u token Hu Ht)).
Qed.

(** ** A redeemed token is spent *)

(** In a store where the rows holding the token are rows of one user, a
    posted password that [reset_password] accepts is committed once,
    together with the emptied token fields, and the token has no holder
    from then on. *)
Lemma reset_password_spends_token :
  forall (env : Env) (token nueva_pass : string) (d : DB),
    body (reset_password env token (POST nueva_pass) d) = redirect "login" [] ->
    one_holder token d ->
    exists u,
      In u (usuarios d)
      /\ Usuario.reset_token u = Some token
      /\ commits (reset_password env token (POST nueva_pass) d)
         = [persisted d (reset_password env token (POST nueva_pass) d)]
      /\ In (Usuario.mk (Usuario.id u) (Usuario.email u)
                        (generate_password_hash env nueva_pass) (Usuario.is_admin u)
                        None None)
            (usuarios (persisted d (reset_password env token (POST nueva_pass) d)))
      /\ (forall v,
            In v (usuarios (persisted d (reset_password env token (POST nueva_pass) d))) ->
            Usuario.id v = Usuario.id u ->
            Usuario.password_hash v = generate_password_hash env nueva_pass
            /\ Usuario.reset_token v = None
            /\ Usuario.token_expiration v = None)
      /\ holders token (persisted d (reset_password env token (POST nueva_pass) d)) = []
      /\ (forall (es : list Event) (env' : Env) (req : request string),
            Forall (fun e => drawn_token e <> Some token) es ->
            reset_password env' token req
              (run es (persisted d (reset_password env token (POST nueva_pass) d)))
            = invalid_or_expired).
Proof.
  intros env token nueva_pass d Hok Hone.
  unfold reset_password in *.
  destruct (first _ (usuarios d)) as [u|] eqn:Hf; [|discriminate Hok].
  destruct (Usuario.token_expiration u) as [e|]; [|discriminate Hok].
  destruct (e <? utcnow env); [discriminate Hok|].
  pose proof (first_holder _ _ _ Hf) as [Hin [Ht Hh]].
  unfold persisted. simpl.
  set (f := fun v => set_reset None None
                       (set_password (generate_password_hash env nueva_pass) v)).
  assert (Hclear : holders token (update_usuario (Usuario.id u) f d) = []).
  { apply update_clears_holder; try assumption. intros v. simpl. discriminate. }
  exists u. split; [exact Hin|]. split; [exact Ht|]. split; [reflexivity|].
  split; [|split; [|split]].
  - unfold update_usuario. simpl. apply in_map_iff. exists u.
    rewrite Z.eqb_refl. split; [reflexivity | exact Hin].
  - intros v Hv Hid. unfold update_usuario in Hv. simpl in Hv.
    apply in_map_iff in Hv. destruct Hv as [w [Hw Hwin]].
    destruct (Usuario.id w =? Usuario.id u) eqn:Hwid.
    + subst v. repeat split.
    + subst v. lia.
  - exact Hclear.
  - intros es env' req Hes. apply reset_password_no_holder.
    apply run_keeps_no_holder; assumption.
Qed.

(** C5: take any execution of the application from the empty store in which
    [secrets] never hands out the same token twice, and in it a posted
    [reset_password] that is accepted.  That request commits exactly once,
    and in that one snapshot the rows of the user carry the new hash with
    [reset_token] and [token_expiration] both empty: no stored state has
    the new password with the token still set.  After whatever events
    follow, [reset_password] answers the same token, for any method and at
    any time, with the invalid-or-expired notice. *)
Theorem reset_password_single_use :
  forall (es1 es2 : list Event) (env : Env) (cookie : option Z)
         (token nueva_pass : string),
    NoDup (draws (es1 ++ Request env cookie (ResetPassword token (POST nueva_pass)) :: es2)) ->
    body (reset_password env token (POST nueva_pass) (run es1 empty_db))
    = redirect "login" [] ->
    exists u,
      In u (usuarios (run es1 empty_db))
      /\ Usuario.reset_token u = Some token
      /\ commits (reset_password env token (POST nueva_pass) (run es1 empty_db))
         = [run (es1 ++ [Request env cookie (ResetPassword token (POST nueva_pass))])
                empty_db]
      /\ (forall v,
            In v (usuarios
                    (run (es1 ++ [Request env cookie (ResetPassword token (POST nueva_pass))])
                         empty_db)) ->
            Usuario.id v = Usuario.id u ->
            Usuario.password_hash v = generate_password_hash env nueva_pass
            /\ Usuario.reset_token v = None
            /\ Usuario.token_expiration v = None)
      /\ (forall (env' : Env) (req : request string),
            reset_password env' token req
              (run (es1 ++ Request env cookie (ResetPassword token (POST nueva_pass)) :: es2)
                   empty_db)
            = invalid_or_expired).
Proof.
  intros es1 es2 env cookie token nueva_pass Hnd Hok.
  set (redeem := Request env cookie (ResetPassword token (POST nueva_pass))) in *.
  change (redeem :: es2) with ([redeem] ++ es2)%list in *.
  rewrite !draws_app, (draws_none redeem eq_refl) in Hnd. simpl in Hnd.
  assert (Hinv : tokens_ok es1 (run es1 empty_db)).
  { apply run_tokens_ok. apply NoDup_app_remove_r in Hnd. exact Hnd. }
  destruct (reset_password_spends_token env token nueva_pass (run es1 empty_db) Hok
              (tokens_ok_one_holder _ _ token Hinv))
    as [u [Hin [Ht [Hcommit [_ [Hrows [_ Hlater]]]]]]].
  assert (Hrun : run (es1 ++ [redeem]) empty_db
                 = persisted (run es1 empty_db)
                     (reset_password env token (POST nueva_pass) (run es1 empty_db))).
  { rewrite run_app. reflexivity. }
  exists u. split; [exact Hin|]. split; [exact Ht|].
  split; [rewrite Hrun; exact Hcommit|].
  split; [rewrite Hrun; exact Hrows|].
  intros env' req. rewrite app_assoc, run_app, Hrun.
  apply Hlater. apply not_drawn.
  apply (NoDup_app_apart _ _ token Hnd).
  destruct Hinv as [Hdrawn _]. exact (Hdrawn u token Hin Ht).
Qed.

Lemma reset_password_single_use_witness :
  exists u,
    In u (usuarios (run ask_trace empty_db))
    /\ Usuario.reset_token u = Some "tok1"
    /\ commits (reset_password redeem_env "tok1" (POST "pw2") (run ask_trace empty_db))
       = [run (ask_trace ++ [Request redeem_env None (ResetPassword "tok1" (POST "pw2"))])
              empty_db]
    /\ (forall v,
          In v (usuarios
                  (run (ask_trace
                        ++ [Request redeem_env None (ResetPassword "tok1" (POST "pw2"))])
                       empty_db)) ->
          Usuario.id v = Usuario.id u ->
          Usuario.password_hash v = generate_password_hash redeem_env "pw2"
          /\ Usuario.reset_token v = None
          /\ Usuario.token_expiration v = None)
    /\ (forall (env' : Env) (req : request string),
          reset_password env' "tok1" req
            (run (ask_trace
                  ++ Request redeem_env None (ResetPassword "tok1" (POST "pw2")) :: [])
                 empty_db)
          = invalid_or_expired).
Proof.
  apply (reset_password_single_use ask_trace [] redeem_env None "tok1" "pw2").
  - simpl. repeat constructor. simpl. intros [].
  - reflexivity.
Defined.

(** ** Administrators come from [init-data] only *)

Lemma NoDup_snoc {A : Type} (l : list A) (x : A) :
  NoDup l -> ~ In x l -> NoDup (l ++ [x]).
Proof.
  intros Hl Hx. apply NoDup_rev in Hl. rewrite <- (rev_involutive (l ++ [x])).
  apply NoDup_rev. rewrite rev_app_distr. simpl. constructor; [|exact Hl].
  intros H. apply in_rev in H. exact (Hx H).
Qed.

Lemma map_id_update (id : Z) (f : Usuario.t -> Usuario.t) (us : list Usuario.t) :
  (forall u, Usuario.id (f u) = Usuario.id u) ->
  map Usuario.id (map (fun u => if Usuario.id u =? id then f u else u) us)
  = map Usuario.id us.
Proof.
  intros Hf. rewrite map_map. apply map_ext. intros u.
  destruct (Usuario.id u =? id); [apply Hf | reflexivity].
Qed.

(** One event keeps the invariant, with the ids in [extra] added when the
    event stores a new administrator. *)
Lemma step_admins_within (e : Event) (d d' : DB) (boot extra : list Z) :
  usuarios_step e (usuarios d) (usuarios d') ->
  (forall u, In u (usuarios d') -> ~ In (Usuario.id u) (map Usuario.id (usuarios d)) ->
             Usuario.is_admin u = true -> In (Usuario.id u) extra) ->
  admins_within d boot ->
  admins_within d' (boot ++ extra).
Proof.
  intros Hstep Hextra [Hnd Hadm]. unfold admins_within.
  destruct Hstep as [Hsame | u Hadd Hid _ _ | id f Hupd Hf].
  - rewrite Hsame. split; [exact Hnd|].
    intros u Hin Ha. apply in_or_app. left. exact (Hadm u Hin Ha).
  - assert (Hfresh : ~ In (Usuario.id u) (map Usuario.id (usuarios d)))
      by (rewrite Hid; apply next_id_fresh).
    split.
    + rewrite Hadd, map_app. simpl. apply NoDup_snoc; assumption.
    + intros v Hin Ha. apply in_or_app.
      pose proof Hin as Hin'. rewrite Hadd in Hin'. apply in_app_or in Hin'.
      destruct Hin' as [Hold | [Hnew | []]].
      * left. exact (Hadm v Hold Ha).
      * right. subst v. apply Hextra; assumption.
  - split.
    + rewrite Hupd, map_id_update; [exact Hnd|]. intros u. apply (Hf u).
    + intros v Hin Ha. apply in_or_app. left.
      rewrite Hupd in Hin. apply in_map_iff in Hin. destruct Hin as [w [Hw Hwin]].
      destruct (Usuario.id w =? id).
      * subst v. destruct (Hf w) as [Hi [_ [Hr _]]]. rewrite Hi. apply Hadm; congruence.
      * subst v. exact (Hadm w Hwin Ha).
Qed.

Lemma created_users_In (d d' : DB) (u : Usuario.t) :
  In u (usuarios d') ->
  ~ In (Usuario.id u) (map Usuario.id (usuarios d)) ->
  In (Usuario.id u) (created_users d d').
Proof.
  intros Hin Hnew. unfold created_users. apply in_map. apply filter_In.
  split; [exact Hin|].
  destruct (existsb _ (map Usuario.id (usuarios d))) eqn:He; [|reflexivity].
  apply existsb_exists in He. destruct He as [x [Hx Heq]].
  apply Z.eqb_eq in Heq. subst x. contradiction.
Qed.

(** A request never stores a new administrator and never changes a role. *)
Lemma request_no_new_admin (env : Env) (cookie : option Z) (r : Route) (d : DB)
    (v : Usuario.t) :
  In v (usuarios (exec (Request env cookie r) d)) ->
  Usuario.is_admin v = true ->
  exists w, In w (usuarios d) /\ Usuario.id w = Usuario.id v /\ Usuario.is_admin w = true.
Proof.
  intros Hin Ha.
  destruct (dispatch_usuarios_step env cookie r d) as [Hsame | u Hadd _ _ Hinit | id f Hupd Hf].
  - rewrite Hsame in Hin. exists v. auto.
  - rewrite Hadd in Hin. apply in_app_or in Hin. destruct Hin as [Hold | [Hnew | []]].
    + exists v. auto.
    + subst v. destruct (Hinit Ha) as [env' He]. discriminate He.
  - rewrite Hupd in Hin. apply in_map_iff in Hin. destruct Hin as [w [Hw Hwin]].
    exists w. destruct (Usuario.id w =? id).
    + subst v. destruct (Hf w) as [Hi [_ [Hr _]]]. repeat split; congruence.
    + subst v. auto.
Qed.

Lemma reachable_admins_within (d : DB) (boot : list Z) :
  reachable d boot -> admins_within d boot.
Proof.
  intros H. induction H as [| env cookie r d boot _ IH | d boot _ IH | env d boot _ IH].
  - split; [constructor|]. intros u [].
  - rewrite <- (app_nil_r boot).
    apply (step_admins_within (Request env cookie r) d); [apply exec_usuarios_step| |exact IH].
    intros u Hin Hnew Ha. exfalso.
    destruct (request_no_new_admin env cookie r d u Hin Ha) as [w [Hw [Hid _]]].
    apply Hnew. rewrite <- Hid. apply in_map. exact Hw.
  - exact IH.
  - apply (step_admins_within (InitData env) d); [apply exec_usuarios_step| |exact IH].
    intros u Hin Hnew _. apply created_users_In; assumption.
Qed.

Lemma registro_new_user (env : Env) (form : Credenciales) (d : DB) :
  ~ registrado d (form_email form) ->
  usuarios (persisted d (registro env (POST form) d))
  = (usuarios d
     ++ [Usuario.mk (next_id (map Usuario.id (usuarios d))) (form_email form)
                    (generate_password_hash env (form_password form)) false None None])%list.
Proof.
  intros Hn. unfold registro.
  destruct (first _ (usuarios d)) as [u|] eqn:Hf; [|reflexivity].
  exfalso. apply Hn. exists u. apply first_email_some. exact Hf.
Qed.

Lemma registro_taken (env : Env) (form : Credenciales) (d : DB) :
  registrado d (form_email form) ->
  persisted d (registro env (POST form) d) = d.
Proof.
  intros Hr. unfold registro.
  destruct (first _ (usuarios d)) as [u|] eqn:Hf; [reflexivity|].
  exfalso. exact (first_email_none _ _ Hf Hr).
Qed.

(** C4: [registro] stores, for an email that is free, one new user whose
    [is_admin] is false, and for a taken email nothing.  No request stores
    an administrator or turns a user into one: an administrator found after
    a request was one, under the same id, before it.  And in every store
    the application reaches from the empty one, by requests and by the two
    commands, the ids are distinct and every administrator is a user that
    [init-data] created. *)
Theorem only_init_data_creates_admins :
  (forall (env : Env) (form : Credenciales) (d : DB),
     (~ registrado d (form_email form) ->
      usuarios (persisted d (registro env (POST form) d))
      = (usuarios d
         ++ [Usuario.mk (next_id (map Usuario.id (usuarios d))) (form_email form)
                        (generate_password_hash env (form_password form))
                        false None None])%list)
     /\ (registrado d (form_email form) ->
         persisted d (registro env (POST form) d) = d))
  /\ (forall (env : Env) (cookie : option Z) (r : Route) (d : DB) (v : Usuario.t),
        In v (usuarios (exec (Request env cookie r) d)) ->
        Usuario.is_admin v = true ->
        exists w, In w (usuarios d)
                  /\ Usuario.id w = Usuario.id v
                  /\ Usuario.is_admin w = true)
  /\ (forall (d : DB) (boot : list Z), reachable d boot -> admins_within d boot).
Proof.
  split; [|split].
  - intros env form d. split; [apply registro_new_user | apply registro_taken].
  - apply request_no_new_admin.
  - apply reachable_admins_within.
Qed.

Lemma only_init_data_creates_admins_witness :
  admins_within
    (run [InitData sample_env;
          Request sample_env None (Registro (POST (mkCredenciales "a@x.com" "pw1")))]
         empty_db)
    [1].
Proof.
  apply (proj2 (proj2 only_init_data_creates_admins)).
  apply (reach_request sample_env None
           (Registro (POST (mkCredenciales "a@x.com" "pw1")))
           (exec (InitData sample_env) empty_db) [1]).
  apply (reach_init_data sample_env empty_db []).
  apply reach_empty.
Defined.

(** ** A later request replaces the token *)

Lemma find_map_same {A : Type} (p : A -> bool) (g : A -> A) (l : list A) :
  (forall x, p (g x) = p x) ->
  find p (map g l) = option_map g (find p l).
Proof.
  intros Hp. induction l as [|x l IH]; simpl; [reflexivity|].
  rewrite Hp. destruct (p x); [reflexivity | exact IH].
Qed.

Lemma olvide_password_commit (env : Env) (email : string) (d : DB) (u : Usuario.t) :
  first (fun u => String.eqb (Usuario.email u) email) (usuarios d) = Some u ->
  persisted d (olvide_password env (POST email) d)
  = update_usuario (Usuario.id u)
      (set_reset (Some (token_urlsafe env)) (Some (utcnow env + one_hour))) d.
Proof. intros Hf. unfold olvide_password. rewrite Hf. reflexivity. Qed.

Lemma first_email_after_update (email : string) (id : Z) (f : Usuario.t -> Usuario.t)
    (d : DB) (u : Usuario.t) :
  (forall v, Usuario.email (f v) = Usuario.email v) ->
  first (fun u => String.eqb (Usuario.email u) email) (usuarios d) = Some u ->
  first (fun u => String.eqb (Usuario.email u) email) (usuarios (update_usuario id f d))
  = Some (if Usuario.id u =? id then f u else u).
Proof.
  intros Hf Hu. unfold first, update_usuario in *. simpl.
  rewrite find_map_same.
  - rewrite Hu. reflexivity.
  - intros x. destruct (Usuario.id x =? id); [rewrite Hf|]; reflexivity.
Qed.

Lemma registrado_first (d : DB) (email : string) :
  registrado d email ->
  exists u, first (fun u => String.eqb (Usuario.email u) email) (usuarios d) = Some u.
Proof.
  intros Hr. destruct (first _ (usuarios d)) as [u|] eqn:Hf; [exists u; reflexivity|].
  exfalso. exact (first_email_none _ _ Hf Hr).
Qed.

(** Two requests in a row for the email of the user [u], the first with a
    token nobody holds and the second with another one. *)
Lemma second_request_overwrites :
  forall (env1 env2 : Env) (email : string) (d : DB) (u : Usuario.t),
    first (fun u => String.eqb (Usuario.email u) email) (usuarios d) = Some u ->
    holders (token_urlsafe env1) d = [] ->
    token_urlsafe env2 <> token_urlsafe env1 ->
    let d1 := persisted d (olvide_password env1 (POST email) d) in
    let d2 := persisted d1 (olvide_password env2 (POST email) d1) in
    (forall (env' : Env) (req : request string),
       utcnow env' <= utcnow env1 + one_hour ->
       reset_password env' (token_urlsafe env1) req d1 <> invalid_or_expired)
    /\ (forall v, In v (usuarios d2) -> Usuario.id v = Usuario.id u ->
                  Usuario.reset_token v = Some (token_urlsafe env2)
                  /\ Usuario.token_expiration v = Some (utcnow env2 + one_hour))
    /\ holders (token_urlsafe env1) d2 = []
    /\ (forall (es : list Event) (env3 : Env) (req : request string),
          Forall (fun e => drawn_token e <> Some (token_urlsafe env1)) es ->
          reset_password env3 (token_urlsafe env1) req (run es d2) = invalid_or_expired).
Proof.
  intros env1 env2 email d u Hu Hfresh Hneq d1 d2.
  set (g1 := set_reset (Some (token_urlsafe env1)) (Some (utcnow env1 + one_hour))).
  set (g2 := set_reset (Some (token_urlsafe env2)) (Some (utcnow env2 + one_hour))).
  assert (Hd1 : d1 = update_usuario (Usuario.id u) g1 d)
    by (apply olvide_password_commit; exact Hu).
  assert (Hu1 : first (fun u => String.eqb (Usuario.email u) email) (usuarios d1)
                = Some (g1 u)).
  { rewrite Hd1. rewrite (first_email_after_update email _ g1 d u); [|reflexivity|exact Hu].
    rewrite Z.eqb_refl. reflexivity. }
  assert (Hd2 : d2 = update_usuario (Usuario.id u) g2 d1)
    by (apply (olvide_password_commit env2 email d1 (g1 u)); exact Hu1).
  pose proof (proj1 (holders_nil _ _) Hfresh) as Hno.
  pose proof (first_email_some _ _ _ Hu) as [Hin _].
  assert (Hgone : holders (token_urlsafe env1) d2 = []).
  { apply holders_nil. intros w Hw Ht. rewrite Hd2, Hd1 in Hw.
    unfold update_usuario in Hw. simpl in Hw. rewrite map_map in Hw.
    apply in_map_iff in Hw. destruct Hw as [v [Hv Hvin]].
    destruct (Usuario.id v =? Usuario.id u) eqn:Hid; simpl in Hv.
    - rewrite Hid in Hv. subst w. simpl in Ht. congruence.
    - rewrite Hid in Hv. subst w. exact (Hno v Hvin Ht). }
  split; [|split; [|split]].
  - intros env' req Hnow Hinv. apply invalid_or_expired_body in Hinv.
    unfold reset_password in Hinv.
    destruct (first (fun u => option_eqb (Usuario.reset_token u) (token_urlsafe env1))
                    (usuarios d1)) as [w|] eqn:Hf.
    + apply find_some in Hf. destruct Hf as [Hw Ht]. apply option_eqb_eq in Ht.
      rewrite Hd1 in Hw. unfold update_usuario in Hw. simpl in Hw.
      apply in_map_iff in Hw. destruct Hw as [v [Hv Hvin]].
      destruct (Usuario.id v =? Usuario.id u).
      * subst w. simpl in Hinv.
        destruct (utcnow env1 + one_hour <? utcnow env') eqn:Hlt; [lia|].
        destruct req; discriminate Hinv.
      * subst w. exact (Hno v Hvin Ht).
    + pose proof (find_none _ _ Hf (g1 u)) as Hnone.
      assert (Hg : In (g1 u) (usuarios d1)).
      { rewrite Hd1. unfold update_usuario. simpl. apply in_map_iff. exists u.
        rewrite Z.eqb_refl. split; [reflexivity | exact Hin]. }
      specialize (Hnone Hg). simpl in Hnone. rewrite String.eqb_refl in Hnone.
      discriminate Hnone.
  - intros v Hv Hid. rewrite Hd2 in Hv. unfold update_usuario in Hv. simpl in Hv.
    apply in_map_iff in Hv. destruct Hv as [w [Hw Hwin]].
    destruct (Usuario.id w =? Usuario.id u) eqn:Hwid.
    + subst v. split; reflexivity.
    + subst v. lia.
  - exact Hgone.
  - intros es env3 req Hes. apply reset_password_no_holder.
    apply run_keeps_no_holder; assumption.
Qed.

(** Two requests in a row inside an execution whose tokens never repeat. *)
Lemma second_request_in_execution :
  forall (es1 es2 : list Event) (env1 env2 : Env) (cookie1 cookie2 : option Z)
         (email : string),
    NoDup (draws (es1 ++ Request env1 cookie1 (OlvidePassword (POST email))
                      :: Request env2 cookie2 (OlvidePassword (POST email)) :: es2)) ->
    registrado (run es1 empty_db) email ->
    exists u,
      In u (usuarios (run es1 empty_db))
      /\ Usuario.email u = email
      /\ (forall (env' : Env) (req : request string),
            utcnow env' <= utcnow env1 + one_hour ->
            reset_password env' (token_urlsafe env1) req
              (run (es1 ++ [Request env1 cookie1 (OlvidePassword (POST email))]) empty_db)
            <> invalid_or_expired)
      /\ (forall v,
            In v (usuarios
                    (run (es1 ++ [Request env1 cookie1 (OlvidePassword (POST email));
                                  Request env2 cookie2 (OlvidePassword (POST email))])
                         empty_db)) ->
            Usuario.id v = Usuario.id u ->
            Usuario.reset_token v = Some (token_urlsafe env2)
            /\ Usuario.token_expiration v = Some (utcnow env2 + one_hour))
      /\ (forall (env3 : Env) (req : request string),
            reset_password env3 (token_urlsafe env1) req
              (run (es1 ++ Request env1 cookie1 (OlvidePassword (POST email))
                        :: Request env2 cookie2 (OlvidePassword (POST email)) :: es2)
                   empty_db)
            = invalid_or_expired).
Proof.
  intros es1 es2 env1 env2 cookie1 cookie2 email Hnd Hreg.
  set (ask1 := Request env1 cookie1 (OlvidePassword (POST email))) in *.
  set (ask2 := Request env2 cookie2 (OlvidePassword (POST email))) in *.
  change (ask1 :: ask2 :: es2) with ([ask1] ++ [ask2] ++ es2)%list in *.
  rewrite !draws_app, (draws_one ask1 (token_urlsafe env1) eq_refl),
    (draws_one ask2 (token_urlsafe env2) eq_refl) in Hnd.
  simpl in Hnd.
  pose proof (NoDup_remove_2 _ _ _ Hnd) as Hfresh1.
  pose proof (NoDup_app_remove_l _ _ Hnd) as Hrest.
  inversion Hrest as [|t1 rest Ht1 Hrest']; subst.
  assert (Hinv : tokens_ok es1 (run es1 empty_db)).
  { apply run_tokens_ok. apply NoDup_app_remove_r in Hnd. exact Hnd. }
  destruct (registrado_first _ _ Hreg) as [u Hu].
  pose proof (first_email_some _ _ _ Hu) as [Hin He].
  assert (Hnobody : holders (token_urlsafe env1) (run es1 empty_db) = []).
  { apply (tokens_ok_not_held es1); [exact Hinv|]. intros H. apply Hfresh1.
    apply in_or_app. left. exact H. }
  assert (Hneq : token_urlsafe env2 <> token_urlsafe env1).
  { intros H. apply Ht1. left. exact H. }
  destruct (second_request_overwrites env1 env2 email (run es1 empty_db) u Hu Hnobody Hneq)
    as [Hlive [Hrows [_ Hlater]]].
  assert (Hrun1 : run (es1 ++ [ask1]) empty_db
                  = persisted (run es1 empty_db)
                      (olvide_password env1 (POST email) (run es1 empty_db))).
  { rewrite run_app. reflexivity. }
  assert (Hrun2 : run (es1 ++ [ask1; ask2]) empty_db
                  = persisted (run (es1 ++ [ask1]) empty_db)
                      (olvide_password env2 (POST email) (run (es1 ++ [ask1]) empty_db))).
  { change [ask1; ask2] with ([ask1] ++ [ask2])%list.
    rewrite app_assoc, (run_app (es1 ++ [ask1])). reflexivity. }
  exists u. split; [exact Hin|]. split; [exact He|].
  split; [rewrite Hrun1; exact Hlive|].
  split; [rewrite Hrun2, Hrun1; exact Hrows|].
  intros env3 req.
  replace (es1 ++ [ask1] ++ [ask2] ++ es2)%list with ((es1 ++ [ask1; ask2]) ++ es2)%list
    by (rewrite <- app_assoc; reflexivity).
  rewrite run_app, Hrun2, Hrun1. apply Hlater. apply not_drawn.
  intros H. apply Ht1. right. exact H.
Qed.

Lemma run_reachable (es : list Event) : exists boot, reachable (run es empty_db) boot.
Proof.
  induction es as [|e es IH] using rev_ind.
  - exists []. apply reach_empty.
  - destruct IH as [boot IH]. rewrite run_app. simpl.
    destruct e as [env cookie r | env |].
    + exists boot. apply reach_request. exact IH.
    + eexists. apply reach_init_data. exact IH.
    + exists boot. apply reach_create_db. exact IH.
Qed.

Lemma NoDup_map_same {A B : Type} (f : A -> B) (l : list A) (x y : A) :
  NoDup (map f l) -> In x l -> In y l -> f x = f y -> x = y.
Proof.
  induction l as [|a l IH]; simpl; intros Hnd Hx Hy Hf; [contradiction|].
  inversion Hnd as [|b l0 Ha Hrest]; subst.
  destruct Hx as [Hx | Hx]; destruct Hy as [Hy | Hy].
  - congruence.
  - subst a. exfalso. apply Ha. rewrite Hf. apply in_map. exact Hy.
  - subst a. exfalso. apply Ha. rewrite <- Hf. apply in_map. exact Hx.
  - exact (IH Hrest Hx Hy Hf).
Qed.

Lemma run_one_row_per_user (es : list Event) : one_row_per_user (run es empty_db).
Proof.
  destruct (run_reachable es) as [boot Hr].
  destruct (reachable_admins_within _ _ Hr) as [Hnd _].
  intros v w Hv Hw Hid. exact (NoDup_map_same Usuario.id _ v w Hnd Hv Hw Hid).
Qed.

(** C10: in every execution from the empty store a user is one row, with
    one [reset_token] field: at most one token of a user is stored at any
    time.  Take such an execution in which [secrets] never hands out the
    same token twice, and in it two [olvide_password] requests in a row for
    the same registered email.  After the first, its token is redeemable
    as long as it has not expired.  The second overwrites it: the row of
    the user then holds the second token and its expiration, and from that
    commit on, after whatever events follow, [reset_password] answers the
    first token with the invalid-or-expired notice whatever the clock
    says. *)
Theorem second_request_revokes_first_token :
  (forall es : list Event, one_row_per_user (run es empty_db))
  /\
  (forall (es1 es2 : list Event) (env1 env2 : Env) (cookie1 cookie2 : option Z)
          (email : string),
    NoDup (draws (es1 ++ Request env1 cookie1 (OlvidePassword (POST email))
                      :: Request env2 cookie2 (OlvidePassword (POST email)) :: es2)) ->
    registrado (run es1 empty_db) email ->
    exists u,
      In u (usuarios (run es1 empty_db))
      /\ Usuario.email u = email
      /\ (forall (env' : Env) (req : request string),
            utcnow env' <= utcnow env1 + one_hour ->
            reset_password env' (token_urlsafe env1) req
              (run (es1 ++ [Request env1 cookie1 (OlvidePassword (POST email))]) empty_db)
            <> invalid_or_expired)
      /\ (forall v,
            In v (usuarios
                    (run (es1 ++ [Request env1 cookie1 (OlvidePassword (POST email));
                                  Request env2 cookie2 (OlvidePassword (POST email))])
                         empty_db)) ->
            Usuario.id v = Usuario.id u ->
            Usuario.reset_token v = Some (token_urlsafe env2)
            /\ Usuario.token_expiration v = Some (utcnow env2 + one_hour))
      /\ (forall (env3 : Env) (req : request string),
            reset_password env3 (token_urlsafe env1) req
              (run (es1 ++ Request env1 cookie1 (OlvidePassword (POST email))
                        :: Request env2 cookie2 (OlvidePassword (POST email)) :: es2)
                   empty_db)
            = invalid_or_expired)).
Proof.
  split; [apply run_one_row_per_user | apply second_request_in_execution].
Qed.

Lemma second_request_revokes_first_token_witness :
  exists u,
    In u (usuarios (run register_trace empty_db))
    /\ Usuario.email u = "a@x.com"
    /\ (forall (env' : Env) (req : request string),
          utcnow env' <= utcnow sample_env + one_hour ->
          reset_password env' (token_urlsafe sample_env) req
            (run (register_trace ++ [Request sample_env None (OlvidePassword (POST "a@x.com"))])
                 empty_db)
          <> invalid_or_expired)
    /\ (forall v,
          In v (usuarios
                  (run (register_trace
                        ++ [Request sample_env None (OlvidePassword (POST "a@x.com"));
                            Request redeem_env None (OlvidePassword (POST "a@x.com"))])
                       empty_db)) ->
          Usuario.id v = Usuario.id u ->
          Usuario.reset_token v = Some (token_urlsafe redeem_env)
          /\ Usuario.token_expiration v = Some (utcnow redeem_env + one_hour))
    /\ (forall (env3 : Env) (req : request string),
          reset_password env3 (token_urlsafe sample_env) req
            (run (register_trace
                  ++ Request sample_env None (OlvidePassword (POST "a@x.com"))
                  :: Request redeem_env None (OlvidePassword (POST "a@x.com")) :: [])
                 empty_db)
          = invalid_or_expired).
Proof.
  apply (proj2 second_request_revokes_first_token register_trace [] sample_env redeem_env
           None None "a@x.com").
  - simpl. repeat constructor; simpl; intuition discriminate.
  - exists (Usuario.mk 2 "a@x.com" "hash:pw1" false None None).
    split; [right; left; reflexivity | reflexivity].
Defined.

(** ** One enrollment per pair *)

Lemma delete_curso_inscripciones (c : Curso.t) (d d' : DB) :
  delete_curso c d = Some d' -> inscripciones d' = inscripciones d.
Proof.
  unfold delete_curso. intros H.
  destruct (Curso_videos d c); [|discriminate H].
  destruct (Curso_inscritos d c); [|discriminate H].
  injection H as H. subst d'. reflexivity.
Qed.

Lemma delete_categoria_inscripciones (c : Categoria.t) (d d' : DB) :
  delete_categoria c d = Some d' -> inscripciones d' = inscripciones d.
Proof.
  unfold delete_categoria. intros H.
  destruct (Categoria_cursos d c); [|discriminate H].
  injection H as H. subst d'. reflexivity.
Qed.

(** An event leaves the enrollments as they are or adds the one row of a
    pair that had none. *)
Lemma exec_inscripciones (e : Event) (d : DB) :
  inscripciones (exec e d) = inscripciones d
  \/ exists usuario_id curso_id,
       ~ inscrito d usuario_id curso_id
       /\ inscripciones (exec e d)
          = (inscripciones d
             ++ [Inscripcion.mk (next_id (map Inscripcion.id (inscripciones d)))
                                usuario_id curso_id])%list.
Proof.
  destruct e as [env cookie r | env |]; [destruct r| |];
    open_route; simpl; split_cases;
    try (left; reflexivity);
    try (left; simpl;
         eauto using delete_curso_inscripciones, delete_categoria_inscripciones; fail).
  right. eexists. eexists. split; [|reflexivity].
  apply first_pair_none. assumption.
Qed.

(** X1: requests one after the other never store a pair twice. *)
Theorem run_unique_pairs :
  forall es : list Event, unique_pairs (run es empty_db).
Proof.
  induction es as [|e es IH] using rev_ind; intros uid cid.
  - simpl. lia.
  - rewrite run_app. simpl. unfold inscripciones_de.
    destruct (exec_inscripciones e (run es empty_db)) as [Hsame | [u [c [Hn Hadd]]]].
    + rewrite Hsame. apply IH.
    + rewrite Hadd, filter_app. rewrite length_app. simpl.
      destruct ((u =? uid) && (c =? cid)) eqn:Hpair; simpl.
      * apply andb_true_iff in Hpair. destruct Hpair as [Hu Hc].
        apply Z.eqb_eq in Hu. apply Z.eqb_eq in Hc. subst u c.
        apply inscripciones_de_nil in Hn. unfold inscripciones_de in Hn.
        rewrite Hn. simpl. lia.
      * specialize (IH uid cid). unfold inscripciones_de in IH. lia.
Qed.

(** ** The scenario *)

(** After registering, [a@x.com] logs in with the right password and is
    refused, with the one notice for both fields, with a wrong one; before
    enrolling the course page is withheld, after the scenario it is shown,
    and the video of the course is stored under its [embed] link. *)
Example scenario_runs :
  let registered := run (firstn 2 scenario) empty_db in
  let before := run (firstn 5 scenario) empty_db in
  let final := run scenario empty_db in
  login sample_env (POST (mkCredenciales "a@x.com" "pw1")) registered
  = mkOutcome [] [] [] (LoginUser 2) (redirect "index" [])
  /\ login sample_env (POST (mkCredenciales "a@x.com" "pw9")) registered
     = flash "Correo o contraseña incorrectos." (render_template "login.html" [])
  /\ login sample_env (POST (mkCredenciales "z@x.com" "pw1")) registered
     = flash "Correo o contraseña incorrectos." (render_template "login.html" [])
  /\ body (ver_curso (current_user before (Some 2)) 4 before)
     = render_template "curso_no_autorizado.html" [("curso", VCurso (Curso.mk 4 "Algebra" 4))]
  /\ body (ver_curso (current_user final (Some 2)) 4 final)
     = render_template "ver_curso.html" [("curso", VCurso (Curso.mk 4 "Algebra" 4))]
  /\ Curso_videos final (Curso.mk 4 "Algebra" 4)
     = [Video.mk 4 "Intro" "https://www.youtube.com/embed/ABC123" 4].
Proof. repeat split; vm_compute; reflexivity. Qed.

(** * Further properties of the application *)

(** ** Lookups by key *)

Lemma get_some {A : Type} (pk : A -> Z) (l : list A) (i : Z) (x : A) :
  get pk l i = Some x -> In x l /\ pk x = i.
Proof.
  intros H. apply find_some in H. destruct H as [Hin Hk]. split; [exact Hin | lia].
Qed.

Lemma get_exists {A : Type} (pk : A -> Z) (l : list A) (i : Z) :
  (exists x, In x l /\ pk x = i) -> exists y, get pk l i = Some y.
Proof.
  intros [x [Hin Hk]]. unfold get.
  destruct (find _ l) as [y|] eqn:Hf; [exists y; reflexivity|].
  pose proof (find_none _ _ Hf x Hin) as Hn. simpl in Hn. lia.
Qed.

Lemma get_none {A : Type} (pk : A -> Z) (l : list A) (i : Z) :
  get pk l i = None -> forall x, In x l -> pk x <> i.
Proof.
  intros H x Hin Hk. pose proof (find_none _ _ H x Hin) as Hn. simpl in Hn. lia.
Qed.

Lemma find_app {A : Type} (p : A -> bool) (l l' : list A) :
  find p (l ++ l') = match find p l with
                     | Some x => Some x
                     | None => find p l'
                     end.
Proof.
  induction l as [|x l IH]; simpl; [reflexivity|].
  destruct (p x); [reflexivity | exact IH].
Qed.

Lemma get_new_row {A : Type} (pk : A -> Z) (l : list A) (x : A) :
  ~ In (pk x) (map pk l) -> get pk (l ++ [x]) (pk x) = Some x.
Proof.
  intros Hnew. unfold get. rewrite find_app.
  destruct (find _ l) as [y|] eqn:Hf.
  - apply find_some in Hf. destruct Hf as [Hin Hk]. exfalso. apply Hnew.
    replace (pk x) with (pk y) by lia. apply in_map. exact Hin.
  - simpl. rewrite Z.eqb_refl. reflexivity.
Qed.

Lemma current_user_some (d : DB) (cookie : option Z) (u : Usuario.t) :
  current_user d cookie = Some u ->
  cookie = Some (Usuario.id u) /\ In u (usuarios d).
Proof.
  destruct cookie as [i|]; simpl; [|discriminate].
  unfold load_user. intros H. apply get_some in H. destruct H as [Hin Hk].
  subst i. split; [reflexivity | exact Hin].
Qed.

(** ** Accounts are kept *)

Lemma exec_keeps_user (e : Event) (d : DB) (u : Usuario.t) :
  In u (usuarios d) ->
  exists u', In u' (usuarios (exec e d))
             /\ Usuario.id u' = Usuario.id u
             /\ Usuario.email u' = Usuario.email u
             /\ Usuario.is_admin u' = Usuario.is_admin u.
Proof.
  intros Hin.
  destruct (exec_usuarios_step e d) as [Hsame | n Hadd _ _ _ | id f Hupd Hf].
  - exists u. rewrite Hsame. auto.
  - exists u. rewrite Hadd. split; [apply in_or_app; left; exact Hin | auto].
  - exists (if Usuario.id u =? id then f u else u). split.
    + rewrite Hupd. apply (in_map (fun v => if Usuario.id v =? id then f v else v)).
      exact Hin.
    + destruct (Usuario.id u =? id); [|auto].
      destruct (Hf u) as [H1 [H2 [H3 _]]]. auto.
Qed.

Lemma run_keeps_user (es : list Event) (d : DB) (u : Usuario.t) :
  In u (usuarios d) ->
  exists u', In u' (usuarios (run es d))
             /\ Usuario.id u' = Usuario.id u
             /\ Usuario.email u' = Usuario.email u
             /\ Usuario.is_admin u' = Usuario.is_admin u.
Proof.
  revert d u. induction es as [|e es IH]; intros d u Hin; simpl.
  - exists u. auto.
  - destruct (exec_keeps_user e d u Hin) as [u1 [Hin1 [Hi1 [He1 Ha1]]]].
    destruct (IH (exec e d) u1 Hin1) as [u2 [Hin2 [Hi2 [He2 Ha2]]]].
    exists u2. repeat split; congruence.
Qed.

(** X2: no event deletes a user or changes the id, the email or the role of one:
    in an execution from the empty store, a session that resolves to a user
    resolves, after whatever events follow, to a user with the same id,
    email and role. *)
Theorem session_stays_valid :
  forall (es1 es2 : list Event) (cookie : option Z) (u : Usuario.t),
    current_user (run es1 empty_db) cookie = Some u ->
    exists u',
      current_user (run (es1 ++ es2) empty_db) cookie = Some u'
      /\ Usuario.id u' = Usuario.id u
      /\ Usuario.email u' = Usuario.email u
      /\ Usuario.is_admin u' = Usuario.is_admin u.
Proof.
  intros es1 es2 cookie u Hu.
  apply current_user_some in Hu. destruct Hu as [Hc Hin]. subst cookie.
  destruct (run_keeps_user es2 _ u Hin) as [u1 [Hin1 [Hi1 [He1 Ha1]]]].
  rewrite run_app. simpl. unfold load_user.
  destruct (get_exists Usuario.id (usuarios (run es2 (run es1 empty_db))) (Usuario.id u))
    as [y Hy]; [exists u1; auto|].
  exists y. split; [exact Hy|].
  apply get_some in Hy. destruct Hy as [Hyin Hyid].
  assert (Heq : y = u1).
  { rewrite <- run_app in Hyin, Hin1.
    apply (run_one_row_per_user (es1 ++ es2) y u1 Hyin Hin1). congruence. }
  subst y. auto.
Qed.

Lemma session_stays_valid_witness :
  exists u',
    current_user (run (register_trace ++ ask_trace) empty_db) (Some 2) = Some u'
    /\ Usuario.id u' = 2
    /\ Usuario.email u' = "a@x.com"
    /\ Usuario.is_admin u' = false.
Proof.
  apply (session_stays_valid register_trace ask_trace (Some 2)
           (Usuario.mk 2 "a@x.com" "hash:pw1" false None None)).
  reflexivity.
Defined.

(** ** What changes the user table *)

(** The four ways an event changes the user table, each with what the view
    checked before committing: a new row under a free email, a stored
    token for the user found by email, or a new password for the user
    found by a token that has not expired. *)
Lemma exec_usuarios_cases (e : Event) (d : DB) :
  usuarios (exec e d) = usuarios d
  \/ (exists email hash role,
        ~ In email (map Usuario.email (usuarios d))
        /\ usuarios (exec e d) = usuarios (add_usuario email hash role d))
  \/ (exists env cookie email w,
        e = Request env cookie (OlvidePassword (POST email))
        /\ first (fun u => String.eqb (Usuario.email u) email) (usuarios d) = Some w
        /\ usuarios (exec e d)
           = usuarios (update_usuario (Usuario.id w)
                         (set_reset (Some (token_urlsafe env))
                                    (Some (utcnow env + one_hour))) d))
  \/ (exists env cookie token nueva w expiration,
        e = Request env cookie (ResetPassword token (POST nueva))
        /\ first (fun u => option_eqb (Usuario.reset_token u) token) (usuarios d) = Some w
        /\ Usuario.token_expiration w = Some expiration
        /\ utcnow env <= expiration
        /\ usuarios (exec e d)
           = usuarios (update_usuario (Usuario.id w)
                         (fun v => set_reset None None
                                     (set_password (generate_password_hash env nueva) v))
                         d)).
Proof.
  destruct e as [env cookie r | env |]; [destruct r| |].
  all: try (left; reflexivity).
  all: try (left; open_route; simpl; split_cases; try reflexivity;
            simpl; eauto using delete_curso_usuarios, delete_categoria_usuarios; fail).
  - (* registro *)
    destruct req as [|form]; [left; reflexivity|].
    unfold exec, outcome, dispatch, registro, persisted.
    destruct (first _ (usuarios d)) as [u|] eqn:Hf; [left; reflexivity|].
    right. left. exists (form_email form), (generate_password_hash env (form_password form)), false.
    split; [|reflexivity].
    intros Hin. apply in_map_iff in Hin. destruct Hin as [v [Hv Hvin]].
    pose proof (find_none _ _ Hf v Hvin) as Hn. simpl in Hn.
    apply String.eqb_neq in Hn. contradiction.
  - (* olvide_password *)
    destruct req as [|email]; [left; reflexivity|].
    unfold exec, outcome, dispatch, olvide_password, persisted.
    destruct (first _ (usuarios d)) as [w|] eqn:Hf; [|left; reflexivity].
    right. right. left. exists env, cookie, email, w. auto.
  - (* reset_password *)
    unfold exec, outcome, dispatch, reset_password, persisted.
    destruct (first _ (usuarios d)) as [w|] eqn:Hf; [|left; reflexivity].
    destruct (Usuario.token_expiration w) as [x|] eqn:Hx; [|left; reflexivity].
    destruct (x <? utcnow env) eqn:Hlt; [left; reflexivity|].
    destruct req as [|nueva]; [left; reflexivity|].
    right. right. right. exists env, cookie, token, nueva, w, x.
    repeat split; auto. lia.
  - (* init_data *)
    unfold exec, outcome, init_data, persisted.
    destruct (existsb _ (categorias d)); [left; reflexivity|].
    simpl. destruct (existsb _ (usuarios d)) eqn:He; [left; reflexivity|].
    right. left. exists "admin@cursos.com", (generate_password_hash env "admin123"), true.
    split.
    + intros Hin. apply in_map_iff in Hin. destruct Hin as [v [Hv Hvin]].
      assert (Ht : existsb (fun u => (Usuario.email u =? "admin@cursos.com")%string)
                           (usuarios d) = true).
      { apply existsb_exists. exists v. split; [exact Hvin|].
        apply String.eqb_eq. exact Hv. }
      congruence.
    + reflexivity.
Qed.

Lemma map_email_update (id : Z) (f : Usuario.t -> Usuario.t) (us : list Usuario.t) :
  (forall u, Usuario.email (f u) = Usuario.email u) ->
  map Usuario.email (map (fun u => if Usuario.id u =? id then f u else u) us)
  = map Usuario.email us.
Proof.
  intros Hf. rewrite map_map. apply map_ext. intros u.
  destruct (Usuario.id u =? id); [apply Hf | reflexivity].
Qed.

Lemma exec_unique_emails (e : Event) (d : DB) :
  NoDup (map Usuario.email (usuarios d)) ->
  NoDup (map Usuario.email (usuarios (exec e d))).
Proof.
  intros Hnd.
  destruct (exec_usuarios_cases e d)
    as [Hsame | [[em [h [role [Hnew Hadd]]]]
                | [[env [cookie [em [w [_ [_ Hupd]]]]]]
                  | [env [cookie [t [nueva [w [x [_ [_ [_ [_ Hupd]]]]]]]]]]]]].
  - rewrite Hsame. exact Hnd.
  - rewrite Hadd. unfold add_usuario. simpl. rewrite map_app. simpl.
    apply NoDup_snoc; assumption.
  - rewrite Hupd. unfold update_usuario. simpl.
    rewrite map_email_update; [exact Hnd | reflexivity].
  - rewrite Hupd. unfold update_usuario. simpl.
    rewrite map_email_update; [exact Hnd | reflexivity].
Qed.

(** X3: [registro] looks the email up before it stores a user, and [init-data]
    stops at the unique column: in every store the application reaches
    from the empty one, no two users have the same email. *)
Theorem run_unique_emails :
  forall es : list Event, NoDup (map Usuario.email (usuarios (run es empty_db))).
Proof.
  induction es as [|e es IH] using rev_ind.
  - simpl. constructor.
  - rewrite run_app. simpl. apply exec_unique_emails. exact IH.
Qed.

(** ** A password changes only against the stored token *)

(** X4: in an execution from the empty store, whenever an event leaves a user
    with another password hash than before, the event is a posted
    [reset_password] whose token is the one stored for that user and has
    not expired, and the new hash is the hash of the posted password. *)
Theorem password_changes_only_by_token :
  forall (es : list Event) (e : Event) (u u' : Usuario.t),
    In u (usuarios (run es empty_db)) ->
    In u' (usuarios (exec e (run es empty_db))) ->
    Usuario.id u' = Usuario.id u ->
    Usuario.password_hash u' <> Usuario.password_hash u ->
    exists env cookie token nueva expiration,
      e = Request env cookie (ResetPassword token (POST nueva))
      /\ Usuario.reset_token u = Some token
      /\ Usuario.token_expiration u = Some expiration
      /\ utcnow env <= expiration
      /\ Usuario.password_hash u' = generate_password_hash env nueva.
Proof.
  intros es e u u' Hu Hu' Hid Hhash.
  pose proof (run_one_row_per_user es) as Hone.
  set (d := run es empty_db) in *.
  destruct (exec_usuarios_cases e d)
    as [Hsame | [[em [h [role [Hnew Hadd]]]]
                | [[env [cookie [em [w [_ [_ Hupd]]]]]]
                  | [env [cookie [t [nueva [w [x [He [Hw [Hx [Hnow Hupd]]]]]]]]]]]]].
  - exfalso. rewrite Hsame in Hu'. apply Hhash. f_equal. exact (Hone u' u Hu' Hu Hid).
  - exfalso. rewrite Hadd in Hu'. unfold add_usuario in Hu'. simpl in Hu'.
    apply in_app_or in Hu'. destruct Hu' as [Hold | [Hn | []]].
    + apply Hhash. f_equal. exact (Hone u' u Hold Hu Hid).
    + subst u'. simpl in Hid. apply (next_id_fresh (map Usuario.id (usuarios d))).
      rewrite Hid. apply in_map. exact Hu.
  - exfalso. rewrite Hupd in Hu'. unfold update_usuario in Hu'. simpl in Hu'.
    apply in_map_iff in Hu'. destruct Hu' as [v [Hv Hvin]].
    assert (Hvu : v = u).
    { apply (Hone v u Hvin Hu). destruct (Usuario.id v =? Usuario.id w); subst u'; auto. }
    subst v. apply Hhash. destruct (Usuario.id u =? Usuario.id w); subst u'; reflexivity.
  - rewrite Hupd in Hu'. unfold update_usuario in Hu'. simpl in Hu'.
    apply in_map_iff in Hu'. destruct Hu' as [v [Hv Hvin]].
    assert (Hvu : v = u).
    { apply (Hone v u Hvin Hu). destruct (Usuario.id v =? Usuario.id w); subst u'; auto. }
    subst v. destruct (Usuario.id u =? Usuario.id w) eqn:Hiw.
    + apply find_some in Hw. destruct Hw as [Hwin Hwt]. apply option_eqb_eq in Hwt.
      assert (Huw : u = w) by (apply (Hone u w Hu Hwin); lia).
      subst w. exists env, cookie, t, nueva, x.
      subst u'. repeat split; auto.
    + exfalso. apply Hhash. subst u'. reflexivity.
Qed.

Lemma password_changes_only_by_token_witness :
  exists env cookie token nueva expiration,
    Request redeem_env None (ResetPassword "tok1" (POST "pw2"))
    = Request env cookie (ResetPassword token (POST nueva))
    /\ Usuario.reset_token
         (Usuario.mk 2 "a@x.com" "hash:pw1" false (Some "tok1") (Some 3600001000))
       = Some token
    /\ Usuario.token_expiration
         (Usuario.mk 2 "a@x.com" "hash:pw1" false (Some "tok1") (Some 3600001000))
       = Some expiration
    /\ utcnow env <= expiration
    /\ Usuario.password_hash (Usuario.mk 2 "a@x.com" "hash:pw2" false None None)
       = generate_password_hash env nueva.
Proof.
  apply (password_changes_only_by_token ask_trace
           (Request redeem_env None (ResetPassword "tok1" (POST "pw2")))
           (Usuario.mk 2 "a@x.com" "hash:pw1" false (Some "tok1") (Some 3600001000))
           (Usuario.mk 2 "a@x.com" "hash:pw2" false None None)).
  - vm_compute. right. left. reflexivity.
  - vm_compute. right. left. reflexivity.
  - reflexivity.
  - simpl. discriminate.
Defined.

(** ** Category names are unique *)

Lemma filter_keeps_distinct {R K : Type} (key : R -> K) (keep : R -> bool)
    (rows : list R) (Hnd : NoDup (map key rows)) :
  NoDup (map key (filter keep rows)).
Proof.
  induction rows as [|x rows IH]; simpl in *; [constructor|].
  inversion Hnd as [|y l0 Hx Hrest]; subst.
  destruct (keep x); simpl; [|apply IH; exact Hrest].
  constructor; [|apply IH; exact Hrest].
  intros Hin. apply Hx. apply in_map_iff in Hin. destruct Hin as [z [Hz Hzin]].
  apply filter_In in Hzin. rewrite <- Hz. apply in_map. apply Hzin.
Qed.

Lemma delete_curso_categorias (c : Curso.t) (d d' : DB) :
  delete_curso c d = Some d' -> categorias d' = categorias d.
Proof.
  unfold delete_curso. intros H.
  destruct (Curso_videos d c); [|discriminate H].
  destruct (Curso_inscritos d c); [|discriminate H].
  injection H as H. subst d'. reflexivity.
Qed.

Lemma nombre_not_stored (d : DB) (nombre : string) :
  first (fun c => String.eqb (Categoria.nombre c) nombre) (categorias d) = None ->
  ~ In nombre (map Categoria.nombre (categorias d)).
Proof.
  intros Hf Hin. apply in_map_iff in Hin. destruct Hin as [c [Hc Hcin]].
  pose proof (find_none _ _ Hf c Hcin) as Hn. simpl in Hn.
  apply String.eqb_neq in Hn. contradiction.
Qed.

Lemma seed_nombres_free (d : DB) (nombres : list string) :
  existsb (fun c => existsb (String.eqb (Categoria.nombre c)) nombres) (categorias d) = false ->
  forall n, In n nombres -> ~ In n (map Categoria.nombre (categorias d)).
Proof.
  intros He n Hn Hin. apply in_map_iff in Hin. destruct Hin as [c [Hc Hcin]].
  assert (Ht : existsb (fun c => existsb (String.eqb (Categoria.nombre c)) nombres)
                       (categorias d) = true).
  { apply existsb_exists. exists c. split; [exact Hcin|].
    apply existsb_exists. exists n. split; [exact Hn|].
    apply String.eqb_eq. exact Hc. }
  congruence.
Qed.

Lemma delete_categoria_categorias (c : Categoria.t) (d d' : DB) :
  delete_categoria c d = Some d' ->
  categorias d' = filter (fun k => negb (Categoria.id k =? Categoria.id c)) (categorias d).
Proof.
  unfold delete_categoria. intros H.
  destruct (Categoria_cursos d c); [|discriminate H].
  injection H as H. subst d'. reflexivity.
Qed.

Lemma three_more {A : Type} (l : list A) (a b c : A) :
  NoDup l -> ~ In a l -> ~ In b l -> ~ In c l -> a <> b -> a <> c -> b <> c ->
  NoDup (((l ++ [a]) ++ [b]) ++ [c]).
Proof.
  intros Hl Ha Hb Hc Hab Hac Hbc.
  apply NoDup_snoc; [apply NoDup_snoc; [apply NoDup_snoc; assumption|]|].
  - intros H. apply in_app_or in H. destruct H as [H | [H | []]]; [exact (Hb H) | exact (Hab H)].
  - intros H. apply in_app_or in H. destruct H as [H | [H | []]]; [|exact (Hbc H)].
    apply in_app_or in H. destruct H as [H | [H | []]]; [exact (Hc H) | exact (Hac H)].
Qed.

Lemma exec_unique_nombres (e : Event) (d : DB) :
  NoDup (map Categoria.nombre (categorias d)) ->
  NoDup (map Categoria.nombre (categorias (exec e d))).
Proof.
  intros Hnd.
  destruct e as [env cookie r | env |]; [destruct r| |];
    open_route; simpl; split_cases; try assumption.
  - rewrite map_app. simpl. apply NoDup_snoc; [exact Hnd|].
    apply nombre_not_stored. assumption.
  - erewrite delete_curso_categorias by eassumption. exact Hnd.
  - match goal with
    | H : delete_categoria _ _ = Some _ |- _ => apply delete_categoria_categorias in H;
                                                rewrite H
    end.
    apply filter_keeps_distinct. exact Hnd.
  - rewrite !map_app. simpl. apply three_more; try discriminate; try exact Hnd;
      match goal with
      | H : existsb _ (categorias d) = false |- _ =>
          apply (seed_nombres_free d
                   ["SQL y Bases de Datos"; "Python desde Cero"; "Desarrollo Web"] H);
          simpl; auto
      end.
  - rewrite !map_app. simpl. apply three_more; try discriminate; try exact Hnd;
      match goal with
      | H : existsb _ (categorias d) = false |- _ =>
          apply (seed_nombres_free d
                   ["SQL y Bases de Datos"; "Python desde Cero"; "Desarrollo Web"] H);
          simpl; auto
      end.
Qed.

(** X5: [crear_categoria] looks the name up before it stores a category, and
    [init-data] stops at the unique column: in every store the application
    reaches from the empty one, no two categories have the same name. *)
Theorem run_unique_nombres :
  forall es : list Event, NoDup (map Categoria.nombre (categorias (run es empty_db))).
Proof.
  induction es as [|e es IH] using rev_ind.
  - simpl. constructor.
  - rewrite run_app. simpl. apply exec_unique_nombres. exact IH.
Qed.

(** ** Who may do what *)

(** X6: a request whose session resolves to no user, because it has none or
    because no user has its id, is sent to [login] by every view but
    [registro], [login], [olvide_password] and [reset_password]; nothing is
    committed. *)
Theorem anonymous_is_sent_to_login :
  forall (env : Env) (cookie : option Z) (r : Route) (d : DB),
    current_user d cookie = None ->
    protected r = true ->
    body (dispatch env cookie r d) = redirect "login" []
    /\ commits (dispatch env cookie r d) = []
    /\ session (dispatch env cookie r d) = Keep
    /\ exec (Request env cookie r) d = d.
Proof.
  intros env cookie r d Hu Hp.
  destruct r; try discriminate Hp;
    unfold exec, outcome, persisted, dispatch, index, ver_categoria, logout, inscribirse,
      admin_dashboard, crear_categoria, ver_curso, crear_curso, crear_video, borrar_curso,
      borrar_categoria, borrar_video, editar_curso, login_required;
    rewrite Hu; repeat split; reflexivity.
Qed.

Lemma anonymous_is_sent_to_login_witness :
  body (dispatch sample_env (Some 99) (BorrarVideo 1) sample_db) = redirect "login" []
  /\ commits (dispatch sample_env (Some 99) (BorrarVideo 1) sample_db) = []
  /\ session (dispatch sample_env (Some 99) (BorrarVideo 1) sample_db) = Keep
  /\ exec (Request sample_env (Some 99) (BorrarVideo 1)) sample_db = sample_db.
Proof.
  apply (anonymous_is_sent_to_login sample_env (Some 99) (BorrarVideo 1) sample_db);
    reflexivity.
Defined.

(** X7: whatever a request asks for, when its session is not that of an
    administrator the categories, the courses and the videos stay as they
    are. *)
Theorem only_an_administrator_edits_the_catalogue :
  forall (env : Env) (cookie : option Z) (r : Route) (d : DB),
    (forall u, current_user d cookie = Some u -> Usuario.is_admin u = false) ->
    categorias (exec (Request env cookie r) d) = categorias d
    /\ cursos (exec (Request env cookie r) d) = cursos d
    /\ videos (exec (Request env cookie r) d) = videos d.
Proof.
  intros env cookie r d Hna.
  destruct (current_user d cookie) as [u|] eqn:Hu.
  - specialize (Hna u eq_refl).
    destruct r; open_route; simpl; rewrite ?Hu, ?Hna; simpl; split_cases;
      repeat split; reflexivity.
  - destruct r; open_route; simpl; rewrite ?Hu; simpl; split_cases;
      repeat split; reflexivity.
Qed.

Lemma only_an_administrator_edits_the_catalogue_witness :
  categorias (exec (Request sample_env (Some 1) (BorrarVideo 1)) sample_db)
  = categorias sample_db
  /\ cursos (exec (Request sample_env (Some 1) (BorrarVideo 1)) sample_db) = cursos sample_db
  /\ videos (exec (Request sample_env (Some 1) (BorrarVideo 1)) sample_db) = videos sample_db.
Proof.
  apply (only_an_administrator_edits_the_catalogue sample_env (Some 1) (BorrarVideo 1)
           sample_db).
  intros u Hu. injection Hu as Hu. subst u. reflexivity.
Defined.

(** X8: no event removes an enrollment, and a request adds none but for its own
    user: a row that is new after a request is the row of the logged-in
    user and of the course that [inscribirse] was asked for. *)
Theorem enrollments_are_kept_and_own :
  (forall (e : Event) (d : DB) (row : Inscripcion.t),
     In row (inscripciones d) -> In row (inscripciones (exec e d)))
  /\ (forall (env : Env) (cookie : option Z) (r : Route) (d : DB) (row : Inscripcion.t),
        In row (inscripciones (exec (Request env cookie r) d)) ->
        In row (inscripciones d)
        \/ exists u, current_user d cookie = Some u
                     /\ Inscripcion.usuario_id row = Usuario.id u
                     /\ r = Inscribirse (Inscripcion.curso_id row)).
Proof.
  split.
  - intros e d row Hin.
    destruct (exec_inscripciones e d) as [Hsame | [u [c [_ Hadd]]]].
    + rewrite Hsame. exact Hin.
    + rewrite Hadd. apply in_or_app. left. exact Hin.
  - intros env cookie r d row.
    destruct r; open_route; simpl; split_cases; intros Hin; auto;
      try (left; erewrite <- delete_curso_inscripciones by eassumption; exact Hin);
      try (left; erewrite <- delete_categoria_inscripciones by eassumption; exact Hin).
    apply in_app_or in Hin. destruct Hin as [Hin | [Hin | []]]; [left; exact Hin|].
    right. subst row. simpl. eexists. split; [reflexivity|]. split; reflexivity.
Qed.

(** ** An enrollment lasts *)

Lemma delete_curso_some (c : Curso.t) (d d' : DB) :
  delete_curso c d = Some d' ->
  Curso_videos d c = [] /\ Curso_inscritos d c = []
  /\ d' = mkDB (usuarios d) (categorias d)
               (filter (fun k => negb (Curso.id k =? Curso.id c)) (cursos d))
               (videos d) (inscripciones d).
Proof.
  unfold delete_curso. intros H.
  destruct (Curso_videos d c); [|discriminate H].
  destruct (Curso_inscritos d c); [|discriminate H].
  injection H as H. auto.
Qed.

Lemma delete_categoria_some (c : Categoria.t) (d d' : DB) :
  delete_categoria c d = Some d' ->
  Categoria_cursos d c = []
  /\ d' = mkDB (usuarios d)
               (filter (fun k => negb (Categoria.id k =? Categoria.id c)) (categorias d))
               (cursos d) (videos d) (inscripciones d).
Proof.
  unfold delete_categoria. intros H.
  destruct (Categoria_cursos d c); [|discriminate H].
  injection H as H. auto.
Qed.

(** A course somebody is enrolled in survives every event. *)
Lemma exec_keeps_enrolled_curso (e : Event) (d : DB) (id_curso : Z) :
  (exists row, In row (inscripciones d) /\ Inscripcion.curso_id row = id_curso) ->
  curso_exists d id_curso ->
  curso_exists (exec e d) id_curso.
Proof.
  intros [row [Hrow Hrc]] [c [Hin Hid]]. unfold curso_exists.
  destruct e as [env cookie r | env |]; [destruct r| |];
    open_route; simpl; split_cases;
    try (exists c; split; [first [exact Hin | apply in_or_app; left; exact Hin] | exact Hid];
         fail).
  - (* borrar_curso *)
    match goal with
    | H : delete_curso ?k d = Some ?d' |- _ =>
        apply delete_curso_some in H; destruct H as [_ [Hnone Hd']]; rewrite Hd'; simpl;
        exists c; split; [|exact Hid]; apply filter_In; split; [exact Hin|];
        destruct (Curso.id c =? Curso.id k) eqn:Hk; [|reflexivity];
        exfalso;
        assert (Hr : In row (Curso_inscritos d k))
          by (apply filter_In; split; [exact Hrow | lia]);
        rewrite Hnone in Hr; exact Hr
    end.
  - (* borrar_categoria *)
    match goal with
    | H : delete_categoria _ d = Some _ |- _ =>
        apply delete_categoria_some in H; destruct H as [_ Hd']; rewrite Hd'; simpl
    end.
    exists c. split; [exact Hin | exact Hid].
  - (* editar_curso *)
    match goal with
    | |- context [map ?g (cursos d)] =>
        exists (g c); split; [exact (in_map g (cursos d) c Hin)|]
    end.
    simpl. destruct (Curso.id c =? _); [exact Hid | exact Hid].
  - exists c. split; [|exact Hid]. repeat (apply in_or_app; left). exact Hin.
  - exists c. split; [|exact Hid]. repeat (apply in_or_app; left). exact Hin.
Qed.

Lemma exec_keeps_inscrito (e : Event) (d : DB) (usuario_id curso_id : Z) :
  inscrito d usuario_id curso_id -> inscrito (exec e d) usuario_id curso_id.
Proof.
  intros [row [Hrow Hk]]. exists row. split; [|exact Hk].
  destruct (exec_inscripciones e d) as [Hsame | [u [c [_ Hadd]]]].
  - rewrite Hsame. exact Hrow.
  - rewrite Hadd. apply in_or_app. left. exact Hrow.
Qed.

Lemma run_keeps_enrollment (es : list Event) (d : DB) (usuario_id curso_id : Z) :
  (exists v, In v (usuarios d) /\ Usuario.id v = usuario_id) ->
  inscrito d usuario_id curso_id ->
  curso_exists d curso_id ->
  (exists v, In v (usuarios (run es d)) /\ Usuario.id v = usuario_id)
  /\ inscrito (run es d) usuario_id curso_id
  /\ curso_exists (run es d) curso_id.
Proof.
  revert d. induction es as [|e es IH]; intros d Hu Hins Hc; simpl; [auto|].
  apply IH.
  - destruct Hu as [v [Hv Hid]].
    destruct (exec_keeps_user e d v Hv) as [v1 [Hv1 [Hid1 _]]].
    exists v1. split; [exact Hv1 | congruence].
  - apply exec_keeps_inscrito. exact Hins.
  - apply exec_keeps_enrolled_curso; [|exact Hc].
    destruct Hins as [row [Hrow [_ Hk]]]. exists row. auto.
Qed.

(** X9: once a user is enrolled in a course, whatever happens next (the
    course edited, other courses deleted, passwords reset) the course
    cannot be deleted and the user is still shown its page. *)
Theorem enrollment_lasts :
  forall (es : list Event) (d : DB) (cookie : option Z) (u : Usuario.t) (id_curso : Z),
    current_user d cookie = Some u ->
    inscrito d (Usuario.id u) id_curso ->
    curso_exists d id_curso ->
    exists curso,
      get Curso.id (cursos (run es d)) id_curso = Some curso
      /\ body (ver_curso (current_user (run es d) cookie) id_curso (run es d))
         = render_template "ver_curso.html" [("curso", VCurso curso)].
Proof.
  intros es d cookie u id_curso Hu Hins Hc.
  apply current_user_some in Hu. destruct Hu as [Hcookie Huin]. subst cookie.
  destruct (run_keeps_enrollment es d (Usuario.id u) id_curso) as [Hu' [Hins' Hc']];
    [exists u; auto | exact Hins | exact Hc |].
  destruct (get_exists Usuario.id (usuarios (run es d)) (Usuario.id u) Hu') as [y Hy].
  destruct (get_exists Curso.id (cursos (run es d)) id_curso Hc') as [curso Hcurso].
  exists curso. split; [exact Hcurso|].
  unfold ver_curso, login_required, current_user, load_user. rewrite Hy, Hcurso.
  apply get_some in Hy. destruct Hy as [_ Hyid].
  destruct (first _ (inscripciones (run es d))) as [row|] eqn:Hf; [reflexivity|].
  exfalso. apply first_pair_none in Hf. apply Hf. rewrite Hyid. exact Hins'.
Qed.

Lemma enrollment_lasts_witness :
  exists curso,
    get Curso.id
        (cursos (run [Request sample_env (Some 2) (EditarCurso 1 (POST (mkCursoForm "Algebra II" 1)));
                      Request sample_env (Some 2) (BorrarCurso 1)]
                     (add_inscripcion 1 1 sample_db)))
        1
    = Some curso
    /\ body (ver_curso
               (current_user
                  (run [Request sample_env (Some 2)
                                (EditarCurso 1 (POST (mkCursoForm "Algebra II" 1)));
                        Request sample_env (Some 2) (BorrarCurso 1)]
                       (add_inscripcion 1 1 sample_db))
                  (Some 1))
               1
               (run [Request sample_env (Some 2)
                             (EditarCurso 1 (POST (mkCursoForm "Algebra II" 1)));
                     Request sample_env (Some 2) (BorrarCurso 1)]
                    (add_inscripcion 1 1 sample_db)))
       = render_template "ver_curso.html" [("curso", VCurso curso)].
Proof.
  apply (enrollment_lasts
           [Request sample_env (Some 2) (EditarCurso 1 (POST (mkCursoForm "Algebra II" 1)));
            Request sample_env (Some 2) (BorrarCurso 1)]
           (add_inscripcion 1 1 sample_db) (Some 1) ana 1).
  - reflexivity.
  - exists (Inscripcion.mk 1 1 1). split; [left; reflexivity | split; reflexivity].
  - exists algebra. split; [left; reflexivity | reflexivity].
Defined.

(** ** Registering, then logging in *)

Lemma first_email_new (email hash : string) (role : bool) (d : DB) :
  ~ registrado d email ->
  first (fun u => String.eqb (Usuario.email u) email) (usuarios (add_usuario email hash role d))
  = Some (Usuario.mk (next_id (map Usuario.id (usuarios d))) email hash role None None).
Proof.
  intros Hn. unfold first, add_usuario. simpl. rewrite find_app.
  destruct (find _ (usuarios d)) as [u|] eqn:Hf.
  - exfalso. apply Hn. exists u. apply first_email_some. exact Hf.
  - simpl. rewrite String.eqb_refl. reflexivity.
Qed.

(** X10: after [registro] has stored a user for a free email, [login] with the
    same email opens a session for the new id exactly when werkzeug
    accepts the password against the stored hash, and answers any rejected
    password with the notice that names neither field; the session then
    resolves to the stored row, which is no administrator. *)
Theorem registro_then_login :
  forall (env env' : Env) (form : Credenciales) (d : DB),
    ~ registrado d (form_email form) ->
    let d' := persisted d (registro env (POST form) d) in
    let id := next_id (map Usuario.id (usuarios d)) in
    let hash := generate_password_hash env (form_password form) in
    (forall password,
       login env' (POST (mkCredenciales (form_email form) password)) d'
       = if check_password_hash env' hash password
         then mkOutcome [] [] [] (LoginUser id) (redirect "index" [])
         else flash "Correo o contraseña incorrectos." (render_template "login.html" []))
    /\ current_user d' (Some id)
       = Some (Usuario.mk id (form_email form) hash false None None).
Proof.
  intros env env' form d Hn d' id hash.
  assert (Hd' : d' = add_usuario (form_email form) hash false d).
  { unfold d', registro.
    destruct (first _ (usuarios d)) as [u|] eqn:Hf; [|reflexivity].
    exfalso. apply Hn. exists u. apply first_email_some. exact Hf. }
  split.
  - intros password. unfold login. simpl. rewrite Hd'.
    rewrite (first_email_new _ _ _ _ Hn). simpl. reflexivity.
  - rewrite Hd'. unfold current_user, load_user, add_usuario. simpl.
    apply (get_new_row Usuario.id (usuarios d)
             (Usuario.mk id (form_email form) hash false None None)).
    simpl. apply next_id_fresh.
Qed.

Lemma registro_then_login_witness :
  let form := mkCredenciales "b@x.com" "pw3" in
  let d' := persisted sample_db (registro sample_env (POST form) sample_db) in
  (forall password,
     login sample_env (POST (mkCredenciales "b@x.com" password)) d'
     = if check_password_hash sample_env "hash:pw3" password
       then mkOutcome [] [] [] (LoginUser 3) (redirect "index" [])
       else flash "Correo o contraseña incorrectos." (render_template "login.html" []))
  /\ current_user d' (Some 3) = Some (Usuario.mk 3 "b@x.com" "hash:pw3" false None None).
Proof.
  intros form.
  apply (registro_then_login sample_env sample_env form sample_db).
  intros [u [Hin He]]. simpl in Hin.
  destruct Hin as [Hu | [Hu | []]]; subst u; discriminate He.
Defined.

(** ** Resetting a password, then logging in *)

(** After a reset was asked for with a token nobody held, the row found by
    that token is the row of the user who asked, with the expiration one
    hour after the request. *)
Lemma holder_after_ask (env : Env) (email : string) (d : DB) (u : Usuario.t) :
  first (fun u => String.eqb (Usuario.email u) email) (usuarios d) = Some u ->
  holders (token_urlsafe env) d = [] ->
  exists w,
    first (fun v => option_eqb (Usuario.reset_token v) (token_urlsafe env))
          (usuarios (persisted d (olvide_password env (POST email) d)))
    = Some w
    /\ Usuario.id w = Usuario.id u
    /\ Usuario.token_expiration w = Some (utcnow env + one_hour).
Proof.
  intros Hu Hfresh. rewrite (olvide_password_commit env email d u Hu).
  pose proof (first_email_some _ _ _ Hu) as [Hin _].
  pose proof (proj1 (holders_nil _ _) Hfresh) as Hno.
  set (g := set_reset (Some (token_urlsafe env)) (Some (utcnow env + one_hour))).
  destruct (first _ (usuarios (update_usuario (Usuario.id u) g d))) as [w|] eqn:Hf.
  - exists w. split; [reflexivity|].
    apply find_some in Hf. destruct Hf as [Hw Ht]. apply option_eqb_eq in Ht.
    unfold update_usuario in Hw. simpl in Hw.
    apply in_map_iff in Hw. destruct Hw as [v [Hv Hvin]].
    destruct (Usuario.id v =? Usuario.id u) eqn:Hid.
    + subst w. simpl. split; [lia | reflexivity].
    + subst w. exfalso. exact (Hno v Hvin Ht).
  - exfalso. pose proof (find_none _ _ Hf (g u)) as Hnone.
    assert (Hg : In (g u) (usuarios (update_usuario (Usuario.id u) g d))).
    { unfold update_usuario. simpl. apply in_map_iff. exists u.
      rewrite Z.eqb_refl. split; [reflexivity | exact Hin]. }
    specialize (Hnone Hg). simpl in Hnone. rewrite String.eqb_refl in Hnone.
    discriminate Hnone.
Qed.

(** X11: a token is good for one hour, the last instant included: after
    [olvide_password] has stored a token nobody held, [reset_password]
    refuses it exactly when the clock is past the time of the request plus
    one hour. *)
Theorem token_is_good_for_one_hour :
  forall (env env' : Env) (email : string) (req : request string) (d : DB),
    registrado d email ->
    holders (token_urlsafe env) d = [] ->
    (reset_password env' (token_urlsafe env) req
       (persisted d (olvide_password env (POST email) d))
     = invalid_or_expired
     <-> utcnow env + one_hour < utcnow env').
Proof.
  intros env env' email req d Hreg Hfresh.
  destruct (registrado_first _ _ Hreg) as [u Hu].
  destruct (holder_after_ask env email d u Hu Hfresh) as [w [Hw [_ Hexp]]].
  unfold reset_password. rewrite Hw, Hexp.
  destruct (utcnow env + one_hour <? utcnow env') eqn:Hlt.
  - split; [intros _; lia | reflexivity].
  - split; [|intros H; lia].
    intros H. apply invalid_or_expired_body in H. destruct req; discriminate H.
Qed.

Lemma token_is_good_for_one_hour_witness :
  reset_password redeem_env (token_urlsafe sample_env) GET
    (persisted sample_db (olvide_password sample_env (POST "a@x.com") sample_db))
  = invalid_or_expired
  <-> utcnow sample_env + one_hour < utcnow redeem_env.
Proof.
  apply (token_is_good_for_one_hour sample_env redeem_env "a@x.com" GET sample_db).
  - exists ana. split; [left; reflexivity | reflexivity].
  - reflexivity.
Defined.

(** X12: asking for a reset, posting a new password with the token within the
    hour, then logging in: the reset is accepted, and afterwards [login]
    with that email opens the session of the same user exactly for the
    passwords werkzeug accepts against the hash of the new one. *)
Theorem reset_then_login :
  forall (env1 env2 env3 : Env) (email nueva : string) (d : DB) (u : Usuario.t),
    first (fun u => String.eqb (Usuario.email u) email) (usuarios d) = Some u ->
    holders (token_urlsafe env1) d = [] ->
    utcnow env2 <= utcnow env1 + one_hour ->
    let d1 := persisted d (olvide_password env1 (POST email) d) in
    let reset := reset_password env2 (token_urlsafe env1) (POST nueva) d1 in
    let d2 := persisted d1 reset in
    body reset = redirect "login" []
    /\ first (fun u => String.eqb (Usuario.email u) email) (usuarios d2)
       = Some (Usuario.mk (Usuario.id u) (Usuario.email u)
                          (generate_password_hash env2 nueva) (Usuario.is_admin u)
                          None None)
    /\ (forall password,
          login env3 (POST (mkCredenciales email password)) d2
          = if check_password_hash env3 (generate_password_hash env2 nueva) password
            then mkOutcome [] [] [] (LoginUser (Usuario.id u)) (redirect "index" [])
            else flash "Correo o contraseña incorrectos."
                       (render_template "login.html" [])).
Proof.
  intros env1 env2 env3 email nueva d u Hu Hfresh Hnow d1 reset d2.
  destruct (holder_after_ask env1 email d u Hu Hfresh) as [w [Hw [Hwid Hexp]]].
  fold d1 in Hw.
  assert (Hlt : (utcnow env1 + one_hour <? utcnow env2) = false) by lia.
  assert (Hreset : reset
                   = mkOutcome
                       [update_usuario (Usuario.id u)
                          (fun v => set_reset None None
                                      (set_password (generate_password_hash env2 nueva) v))
                          d1]
                       ["¡Contraseña actualizada! Ahora puedes iniciar sesión."]
                       [] Keep (redirect "login" [])).
  { unfold reset, reset_password. rewrite Hw, Hexp, Hlt, Hwid. reflexivity. }
  assert (Hfirst : first (fun u => String.eqb (Usuario.email u) email) (usuarios d2)
                   = Some (Usuario.mk (Usuario.id u) (Usuario.email u)
                                      (generate_password_hash env2 nueva)
                                      (Usuario.is_admin u) None None)).
  { assert (Hd2 : d2 = update_usuario (Usuario.id u)
                          (fun v => set_reset None None
                                      (set_password (generate_password_hash env2 nueva) v))
                          d1)
      by (unfold d2, persisted; rewrite Hreset; reflexivity).
    rewrite Hd2.
    rewrite (first_email_after_update email (Usuario.id u) _ d1
               (set_reset (Some (token_urlsafe env1)) (Some (utcnow env1 + one_hour)) u)).
    - simpl. rewrite Z.eqb_refl. reflexivity.
    - reflexivity.
    - unfold d1. rewrite (olvide_password_commit env1 email d u Hu).
      rewrite (first_email_after_update email (Usuario.id u) _ d u); [|reflexivity|exact Hu].
      rewrite Z.eqb_refl. reflexivity. }
  split; [rewrite Hreset; reflexivity|]. split; [exact Hfirst|].
  intros password. unfold login. simpl. rewrite Hfirst. simpl. reflexivity.
Qed.

Lemma reset_then_login_witness :
  let d1 := persisted sample_db (olvide_password sample_env (POST "a@x.com") sample_db) in
  let reset := reset_password redeem_env "tok1" (POST "pw2") d1 in
  let d2 := persisted d1 reset in
  body reset = redirect "login" []
  /\ first (fun u => String.eqb (Usuario.email u) "a@x.com") (usuarios d2)
     = Some (Usuario.mk 1 "a@x.com" "hash:pw2" false None None)
  /\ (forall password,
        login sample_env (POST (mkCredenciales "a@x.com" password)) d2
        = if check_password_hash sample_env "hash:pw2" password
          then mkOutcome [] [] [] (LoginUser 1) (redirect "index" [])
          else flash "Correo o contraseña incorrectos." (render_template "login.html" [])).
Proof.
  apply (reset_then_login sample_env redeem_env sample_env "a@x.com" "pw2" sample_db ana).
  - reflexivity.
  - reflexivity.
  - vm_compute. discriminate.
Defined.

(** ** Running [init-data] *)

Lemma seed_nombres_taken (env : Env) (d : DB) :
  existsb (fun c => existsb (String.eqb (Categoria.nombre c))
                            ["SQL y Bases de Datos"; "Python desde Cero"; "Desarrollo Web"])
          (categorias (exec (InitData env) d))
  = true.
Proof.
  unfold exec, outcome, init_data, persisted.
  destruct (existsb _ (categorias d)) eqn:He; [exact He|].
  simpl. destruct (existsb _ (usuarios d)); simpl;
    rewrite !existsb_app; simpl; rewrite !orb_true_r; reflexivity.
Qed.

(** X13: [init-data] never runs twice: whatever the store was and however the
    first run ended, a second run right after it stops at the unique
    category names with [IntegrityError] and commits nothing. *)
Theorem init_data_runs_once :
  forall (env env' : Env) (d : DB),
    init_data env' (exec (InitData env) d) = respond (raised "IntegrityError")
    /\ exec (InitData env') (exec (InitData env) d) = exec (InitData env) d.
Proof.
  intros env env' d.
  assert (H : init_data env' (exec (InitData env) d) = respond (raised "IntegrityError")).
  { unfold init_data at 1. rewrite (seed_nombres_taken env d). reflexivity. }
  split; [exact H|].
  unfold exec at 1. unfold outcome, persisted. rewrite H. reflexivity.
Qed.

(** X14: [init-data] is not one transaction: when the three category names are
    free but a user already has the administrator's email, the command
    ends with [IntegrityError] after its third commit, and the three
    categories, three courses and three videos it stored before stay,
    without the administrator. *)
Theorem init_data_stops_half_way :
  forall (env : Env) (d : DB),
    (forall n, In n ["SQL y Bases de Datos"; "Python desde Cero"; "Desarrollo Web"] ->
               ~ In n (map Categoria.nombre (categorias d))) ->
    registrado d "admin@cursos.com" ->
    body (init_data env d) = raised "IntegrityError"
    /\ List.length (commits (init_data env d)) = 3%nat
    /\ usuarios (exec (InitData env) d) = usuarios d
    /\ List.length (categorias (exec (InitData env) d))
       = (List.length (categorias d) + 3)%nat
    /\ List.length (cursos (exec (InitData env) d)) = (List.length (cursos d) + 3)%nat
    /\ List.length (videos (exec (InitData env) d)) = (List.length (videos d) + 3)%nat.
Proof.
  intros env d Hfree [u [Hin He]].
  unfold exec, outcome, init_data, persisted.
  destruct (existsb _ (categorias d)) eqn:Hn.
  - exfalso. apply existsb_exists in Hn. destruct Hn as [c [Hc Hcn]].
    apply existsb_exists in Hcn. destruct Hcn as [n [Hn Hcn]].
    apply String.eqb_eq in Hcn. apply (Hfree n Hn). rewrite <- Hcn.
    apply in_map. exact Hc.
  - simpl.
    assert (Ht : existsb (fun u => (Usuario.email u =? "admin@cursos.com")%string)
                         (usuarios d) = true).
    { apply existsb_exists. exists u. split; [exact Hin | apply String.eqb_eq; exact He]. }
    rewrite Ht. simpl. rewrite !length_app. simpl.
    repeat split; lia.
Qed.

Lemma init_data_stops_half_way_witness :
  body (init_data sample_env sample_db) = raised "IntegrityError"
  /\ List.length (commits (init_data sample_env sample_db)) = 3%nat
  /\ usuarios (exec (InitData sample_env) sample_db) = usuarios sample_db
  /\ List.length (categorias (exec (InitData sample_env) sample_db))
     = (List.length (categorias sample_db) + 3)%nat
  /\ List.length (cursos (exec (InitData sample_env) sample_db))
     = (List.length (cursos sample_db) + 3)%nat
  /\ List.length (videos (exec (InitData sample_env) sample_db))
     = (List.length (videos sample_db) + 3)%nat.
Proof.
  apply (init_data_stops_half_way sample_env sample_db).
  - intros n Hn Hin. simpl in Hn, Hin.
    destruct Hin as [Hin | []]. subst n.
    destruct Hn as [Hn | [Hn | [Hn | []]]]; discriminate Hn.
  - exists root. split; [right; left; reflexivity | reflexivity].
Defined.

(** ** Deleting what has no children *)

Lemma get_after_delete {A : Type} (pk : A -> Z) (l : list A) (i : Z) :
  get pk (filter (fun k => negb (pk k =? i)) l) i = None.
Proof.
  unfold get. destruct (find _ (filter _ l)) as [x|] eqn:Hf; [|reflexivity].
  apply find_some in Hf. destruct Hf as [Hin Hk]. apply filter_In in Hin.
  destruct Hin as [_ Hn]. rewrite Hk in Hn. discriminate Hn.
Qed.

(** X15: the administrator deletes a course that has neither videos nor
    enrollments: the rows of its id are gone and every other course, like
    every other table, is as before; the course is then not found, by
    [borrar_curso] again as by [ver_curso]. *)
Theorem borrar_curso_without_children :
  forall (admin : Usuario.t) (id : Z) (curso : Curso.t) (d : DB),
    Usuario.is_admin admin = true ->
    get Curso.id (cursos d) id = Some curso ->
    Curso_videos d curso = [] ->
    Curso_inscritos d curso = [] ->
    let d' := persisted d (borrar_curso (Some admin) id d) in
    body (borrar_curso (Some admin) id d) = redirect "admin_dashboard" []
    /\ d' = mkDB (usuarios d) (categorias d)
                 (filter (fun k => negb (Curso.id k =? id)) (cursos d))
                 (videos d) (inscripciones d)
    /\ borrar_curso (Some admin) id d' = respond (abort 404)
    /\ ver_curso (Some admin) id d' = respond (abort 404).
Proof.
  intros admin id curso d Hadmin Hc Hv Hi d'.
  pose proof (get_some _ _ _ _ Hc) as [_ Hid].
  assert (Hdel : delete_curso curso d
                 = Some (mkDB (usuarios d) (categorias d)
                              (filter (fun k => negb (Curso.id k =? id)) (cursos d))
                              (videos d) (inscripciones d))).
  { unfold delete_curso. rewrite Hv, Hi, Hid. reflexivity. }
  assert (Hd' : d' = mkDB (usuarios d) (categorias d)
                          (filter (fun k => negb (Curso.id k =? id)) (cursos d))
                          (videos d) (inscripciones d)).
  { unfold d', borrar_curso, login_required. rewrite Hadmin, Hc. simpl.
    rewrite Hdel. reflexivity. }
  split.
  - unfold borrar_curso, login_required. rewrite Hadmin, Hc. simpl. rewrite Hdel.
    reflexivity.
  - split; [exact Hd'|]. rewrite Hd'.
    unfold borrar_curso, ver_curso, login_required. rewrite Hadmin. simpl.
    rewrite (get_after_delete Curso.id (cursos d) id). split; reflexivity.
Qed.

Lemma borrar_curso_without_children_witness :
  let d := mkDB [ana; root] [math] [algebra] [] [] in
  let d' := persisted d (borrar_curso (Some root) 1 d) in
  body (borrar_curso (Some root) 1 d) = redirect "admin_dashboard" []
  /\ d' = mkDB (usuarios d) (categorias d)
               (filter (fun k => negb (Curso.id k =? 1)) (cursos d))
               (videos d) (inscripciones d)
  /\ borrar_curso (Some root) 1 d' = respond (abort 404)
  /\ ver_curso (Some root) 1 d' = respond (abort 404).
Proof.
  intros d.
  apply (borrar_curso_without_children root 1 algebra d); reflexivity.
Defined.

Lemma filter_swap {A : Type} (p q : A -> bool) (l : list A) :
  filter p (filter q l) = filter q (filter p l).
Proof.
  induction l as [|x l IH]; simpl; [reflexivity|].
  destruct (p x) eqn:Hp; destruct (q x) eqn:Hq; simpl; rewrite ?Hp, ?Hq, IH; reflexivity.
Qed.

(** X16: the administrator's [borrar_video] removes the rows of that id and
    nothing else, so the video leaves the list of its course; asked
    again, it is not found. *)
Theorem borrar_video_removes :
  forall (admin : Usuario.t) (id : Z) (video : Video.t) (d : DB),
    Usuario.is_admin admin = true ->
    get Video.id (videos d) id = Some video ->
    let d' := persisted d (borrar_video (Some admin) id d) in
    d' = mkDB (usuarios d) (categorias d) (cursos d)
              (filter (fun k => negb (Video.id k =? id)) (videos d))
              (inscripciones d)
    /\ (forall c, Curso_videos d' c
                  = filter (fun k => negb (Video.id k =? id)) (Curso_videos d c))
    /\ borrar_video (Some admin) id d' = respond (abort 404).
Proof.
  intros admin id video d Hadmin Hv d'.
  pose proof (get_some _ _ _ _ Hv) as [_ Hid].
  assert (Hd' : d' = mkDB (usuarios d) (categorias d) (cursos d)
                          (filter (fun k => negb (Video.id k =? id)) (videos d))
                          (inscripciones d)).
  { unfold d', borrar_video, login_required. rewrite Hadmin, Hv. simpl.
    unfold delete_video. rewrite Hid. reflexivity. }
  split; [exact Hd'|]. rewrite Hd'. split.
  - intros c. unfold Curso_videos. simpl. apply filter_swap.
  - unfold borrar_video, login_required. rewrite Hadmin. simpl.
    rewrite (get_after_delete Video.id (videos d) id). reflexivity.
Qed.

Lemma borrar_video_removes_witness :
  let d' := persisted sample_db (borrar_video (Some root) 1 sample_db) in
  d' = mkDB (usuarios sample_db) (categorias sample_db) (cursos sample_db)
            (filter (fun k => negb (Video.id k =? 1)) (videos sample_db))
            (inscripciones sample_db)
  /\ (forall c, Curso_videos d' c
                = filter (fun k => negb (Video.id k =? 1)) (Curso_videos sample_db c))
  /\ borrar_video (Some root) 1 d' = respond (abort 404).
Proof.
  apply (borrar_video_removes root 1 clase sample_db); reflexivity.
Defined.

(** ** A delete leaves no dangling key *)

Lemma curso_exists_same (d d' : DB) (id : Z) :
  cursos d' = cursos d -> curso_exists d id -> curso_exists d' id.
Proof. unfold curso_exists. intros H. rewrite H. auto. Qed.

Lemma delete_curso_keeps_references (c : Curso.t) (d d' : DB) :
  delete_curso c d = Some d' -> referential_integrity d -> referential_integrity d'.
Proof.
  intros Hdel [Hk [Hv Hi]].
  apply delete_curso_some in Hdel. destruct Hdel as [Hnv [Hni Hd']]. subst d'.
  assert (Hkeep : forall x, curso_exists d x -> x <> Curso.id c ->
                            curso_exists
                              (mkDB (usuarios d) (categorias d)
                                    (filter (fun k => negb (Curso.id k =? Curso.id c))
                                            (cursos d))
                                    (videos d) (inscripciones d)) x).
  { intros x [k [Hkin Hkid]] Hne. exists k. split; [|exact Hkid]. simpl.
    apply filter_In. split; [exact Hkin|]. apply negb_true_iff. lia. }
  split; [|split]; simpl.
  - intros k Hkin. apply filter_In in Hkin. apply Hk. apply Hkin.
  - intros v Hvin. apply Hkeep; [apply Hv; exact Hvin|].
    intros Heq.
    assert (Hin : In v (Curso_videos d c)) by (apply filter_In; split; [exact Hvin | lia]).
    rewrite Hnv in Hin. exact Hin.
  - intros i Hiin. destruct (Hi i Hiin) as [Hc Hu]. split; [|exact Hu].
    apply Hkeep; [exact Hc|].
    intros Heq.
    assert (Hin : In i (Curso_inscritos d c)) by (apply filter_In; split; [exact Hiin | lia]).
    rewrite Hni in Hin. exact Hin.
Qed.

Lemma delete_categoria_keeps_references (c : Categoria.t) (d d' : DB) :
  delete_categoria c d = Some d' -> referential_integrity d -> referential_integrity d'.
Proof.
  intros Hdel [Hk [Hv Hi]].
  apply delete_categoria_some in Hdel. destruct Hdel as [Hnone Hd']. subst d'.
  split; [|split]; simpl.
  - intros k Hkin. destruct (Hk k Hkin) as [c0 [Hc0 Hid]].
    exists c0. split; [|exact Hid]. apply filter_In. split; [exact Hc0|].
    apply negb_true_iff. apply Z.eqb_neq. intros Heq.
    assert (Hin : In k (Categoria_cursos d c)) by (apply filter_In; split; [exact Hkin | lia]).
    rewrite Hnone in Hin. exact Hin.
  - intros v Hvin. apply (curso_exists_same d); [reflexivity | apply Hv; exact Hvin].
  - intros i Hiin. destruct (Hi i Hiin) as [Hc Hu]. split; [|exact Hu].
    apply (curso_exists_same d); [reflexivity | exact Hc].
Qed.

(** X17: in a store where every foreign key names a stored row, the three
    delete views keep it so, whoever asks and whatever the id: a course
    or a category goes only when nothing refers to it, and a video is
    referred to by nothing. *)
Theorem deletes_keep_references :
  forall (cu : option Usuario.t) (id : Z) (d : DB),
    referential_integrity d ->
    referential_integrity (persisted d (borrar_curso cu id d))
    /\ referential_integrity (persisted d (borrar_categoria cu id d))
    /\ referential_integrity (persisted d (borrar_video cu id d)).
Proof.
  intros cu id d Hri. split; [|split].
  - unfold borrar_curso, login_required, persisted.
    destruct cu as [u|]; [|exact Hri]. destruct (negb (Usuario.is_admin u)); [exact Hri|].
    destruct (get Curso.id (cursos d) id) as [c|]; [|exact Hri].
    destruct (delete_curso c d) as [d'|] eqn:Hdel; [|exact Hri].
    simpl. exact (delete_curso_keeps_references c d d' Hdel Hri).
  - unfold borrar_categoria, login_required, persisted.
    destruct cu as [u|]; [|exact Hri]. destruct (negb (Usuario.is_admin u)); [exact Hri|].
    destruct (get Categoria.id (categorias d) id) as [c|]; [|exact Hri].
    destruct (delete_categoria c d) as [d'|] eqn:Hdel; [|exact Hri].
    simpl. exact (delete_categoria_keeps_references c d d' Hdel Hri).
  - unfold borrar_video, login_required, persisted.
    destruct cu as [u|]; [|exact Hri]. destruct (negb (Usuario.is_admin u)); [exact Hri|].
    destruct (get Video.id (videos d) id) as [v|]; [|exact Hri].
    simpl. destruct Hri as [Hk [Hv Hi]]. split; [|split]; simpl.
    + exact Hk.
    + intros w Hw. apply filter_In in Hw. destruct Hw as [Hw _].
      apply (curso_exists_same d); [reflexivity | apply Hv; exact Hw].
    + intros i Hiin. destruct (Hi i Hiin) as [Hc Hu]. split; [|exact Hu].
      apply (curso_exists_same d); [reflexivity | exact Hc].
Qed.

Lemma deletes_keep_references_witness :
  referential_integrity (persisted sample_db (borrar_curso (Some root) 1 sample_db))
  /\ referential_integrity (persisted sample_db (borrar_categoria (Some root) 1 sample_db))
  /\ referential_integrity (persisted sample_db (borrar_video (Some root) 1 sample_db)).
Proof.
  apply (deletes_keep_references (Some root) 1 sample_db).
  split; [|split]; simpl.
  - intros k [Hk | []]. subst k. exists math. split; [left; reflexivity | reflexivity].
  - intros v [Hv | []]. subst v. exists algebra. split; [left; reflexivity | reflexivity].
  - intros i [].
Defined.

(** ** Ids that are not stored *)

(** X18: a view that looks its id up with [get_or_404] answers a logged-in user
    who passes its guard, for an id that is not stored, with 404, and
    commits nothing. *)
Theorem missing_id_is_not_found :
  forall (env : Env) (cookie : option Z) (r : Route) (d : DB) (u : Usuario.t),
    current_user d cookie = Some u ->
    (forall op, r = admin_route op -> Usuario.is_admin u = true) ->
    missing_target r d ->
    dispatch env cookie r d = respond (abort 404)
    /\ exec (Request env cookie r) d = d.
Proof.
  intros env cookie r d u Hu Hadm Hmiss.
  assert (H : dispatch env cookie r d = respond (abort 404)).
  { destruct r; simpl in Hmiss; try contradiction;
      unfold dispatch, ver_categoria, inscribirse, ver_curso, borrar_curso,
        borrar_categoria, borrar_video, editar_curso, login_required;
      rewrite Hu, ?Hmiss; try reflexivity.
    - rewrite (Hadm (DeleteCourse id) eq_refl). reflexivity.
    - rewrite (Hadm (DeleteCategory id) eq_refl). reflexivity.
    - rewrite (Hadm (DeleteVideo id) eq_refl). reflexivity.
    - rewrite (Hadm (EditCourse id req) eq_refl). reflexivity. }
  split; [exact H|]. unfold exec, outcome, persisted. rewrite H. reflexivity.
Qed.

Lemma missing_id_is_not_found_witness :
  dispatch sample_env (Some 1) (Inscribirse 7) sample_db = respond (abort 404)
  /\ exec (Request sample_env (Some 1) (Inscribirse 7)) sample_db = sample_db.
Proof.
  apply (missing_id_is_not_found sample_env (Some 1) (Inscribirse 7) sample_db ana).
  - reflexivity.
  - intros op Hop. destruct op; discriminate Hop.
  - reflexivity.
Defined.

(** ** Editing a course *)

(** X19: the administrator's posted [editar_curso] rewrites the title and the
    category of the course of that id: the course is then found with the
    new values, every other course and the ids of all stay, and the
    videos and enrollments of the course, which name it by id, are still
    its own. *)
Theorem editar_curso_keeps_children :
  forall (admin : Usuario.t) (id : Z) (form : CursoForm) (curso : Curso.t) (d : DB),
    Usuario.is_admin admin = true ->
    get Curso.id (cursos d) id = Some curso ->
    let d' := persisted d (editar_curso (Some admin) id (POST form) d) in
    let edited := Curso.mk id (form_titulo form) (form_categoria_id form) in
    get Curso.id (cursos d') id = Some edited
    /\ map Curso.id (cursos d') = map Curso.id (cursos d)
    /\ (forall k, In k (cursos d) -> Curso.id k <> id -> In k (cursos d'))
    /\ Curso_videos d' edited = Curso_videos d curso
    /\ Curso_inscritos d' edited = Curso_inscritos d curso.
Proof.
  intros admin id form curso d Hadmin Hc d' edited.
  pose proof (get_some _ _ _ _ Hc) as [Hin Hid].
  set (g := fun c => if Curso.id c =? Curso.id curso
                     then set_curso (form_titulo form) (form_categoria_id form) c
                     else c).
  assert (Hd' : d' = mkDB (usuarios d) (categorias d) (map g (cursos d))
                          (videos d) (inscripciones d)).
  { unfold d', editar_curso, login_required. rewrite Hadmin, Hc. reflexivity. }
  assert (Hgid : forall c, Curso.id (g c) = Curso.id c).
  { intros c. unfold g. destruct (Curso.id c =? Curso.id curso); reflexivity. }
  rewrite Hd'. simpl. split; [|split; [|split; [|split]]].
  - unfold get. rewrite find_map_same.
    + unfold get in Hc. rewrite Hc. simpl. unfold g. rewrite Z.eqb_refl.
      unfold set_curso, edited. rewrite Hid. reflexivity.
    + intros c. rewrite Hgid. reflexivity.
  - rewrite map_map. apply map_ext. exact Hgid.
  - intros k Hk Hne. apply in_map_iff. exists k. split; [|exact Hk].
    unfold g. destruct (Curso.id k =? Curso.id curso) eqn:He; [lia | reflexivity].
  - unfold Curso_videos. simpl. rewrite Hid. reflexivity.
  - unfold Curso_inscritos. simpl. rewrite Hid. reflexivity.
Qed.

Lemma editar_curso_keeps_children_witness :
  let form := mkCursoForm "Algebra II" 1 in
  let d' := persisted sample_db (editar_curso (Some root) 1 (POST form) sample_db) in
  let edited := Curso.mk 1 "Algebra II" 1 in
  get Curso.id (cursos d') 1 = Some edited
  /\ map Curso.id (cursos d') = map Curso.id (cursos sample_db)
  /\ (forall k, In k (cursos sample_db) -> Curso.id k <> 1 -> In k (cursos d'))
  /\ Curso_videos d' edited = Curso_videos sample_db algebra
  /\ Curso_inscritos d' edited = Curso_inscritos sample_db algebra.
Proof.
  intros form.
  apply (editar_curso_keeps_children root 1 form algebra sample_db); reflexivity.
Defined.

(** ** No stored link is a [watch?v=] link *)

Lemma contains_inert (pattern new x : string) :
  inert pattern new -> PyStr.contains pattern (new ++ x) = PyStr.contains pattern x.
Proof.
  induction new as [|c new IH]; intros Hi; [reflexivity|].
  destruct Hi as [Hp Hrest]. specialize (Hp x).
  change (String c new ++ x) with (String c (new ++ x)) in *.
  change (PyStr.contains pattern (String c (new ++ x)))
    with (prefix pattern (String c (new ++ x)) || PyStr.contains pattern (new ++ x)).
  rewrite Hp. simpl. apply IH. exact Hrest.
Qed.

Lemma replace_from_step (old new : string) (c : ascii) (s : string) :
  PyStr.replace_from 0 old new (String c s)
  = if prefix old (String c s)
    then new ++ PyStr.replace_from (String.length old - 1) old new s
    else String c (PyStr.replace_from 0 old new s).
Proof. reflexivity. Qed.

Lemma prefix_replace_from (old new pattern : string) :
  blocked new pattern ->
  forall s, prefix pattern (PyStr.replace_from 0 old new s) = true ->
            prefix pattern s = true.
Proof.
  induction pattern as [|q pattern IH]; intros Hb s H; [destruct s; reflexivity|].
  destruct Hb as [Hnew Hrest].
  destruct s as [|c s]; [simpl in H; discriminate H|].
  rewrite replace_from_step in H.
  destruct (prefix old (String c s)).
  - rewrite Hnew in H. discriminate H.
  - simpl in H. simpl. destruct (ascii_dec q c); [|discriminate H].
    apply IH; assumption.
Qed.

Lemma guarded_tail (pattern old : string) (c : ascii) (s : string) :
  guarded pattern old (String c s) -> guarded pattern old s.
Proof. intros [_ H]. exact H. Qed.

Lemma guarded_head (pattern old s : string) :
  guarded pattern old s -> prefix pattern s = true -> prefix old s = true.
Proof. destruct s; intros [H _]; exact H. Qed.

(** Replacing leaves no occurrence of the pattern. *)
Lemma replace_from_clean (old new : string) (p : ascii) (pattern : string) :
  inert (String p pattern) new ->
  blocked new (String p pattern) ->
  forall (s : string) (skip : nat),
    guarded (String p pattern) old s ->
    PyStr.contains (String p pattern) (PyStr.replace_from skip old new s) = false.
Proof.
  intros Hi Hb. induction s as [|c s IH]; intros skip Hg; [reflexivity|].
  pose proof (guarded_tail _ _ _ _ Hg) as Hg'.
  destruct skip as [|k]; [|apply IH; exact Hg'].
  rewrite replace_from_step.
  destruct (prefix old (String c s)) eqn:Ho.
  - rewrite contains_inert by exact Hi. apply IH. exact Hg'.
  - change (PyStr.contains (String p pattern) (String c (PyStr.replace_from 0 old new s)))
      with (prefix (String p pattern) (String c (PyStr.replace_from 0 old new s))
            || PyStr.contains (String p pattern) (PyStr.replace_from 0 old new s)).
    rewrite (IH 0%nat Hg'), orb_false_r.
    destruct (prefix (String p pattern) (String c (PyStr.replace_from 0 old new s))) eqn:Hp;
      [|reflexivity].
    exfalso.
    assert (Hr : PyStr.replace_from 0 old new (String c s)
                 = String c (PyStr.replace_from 0 old new s))
      by (rewrite replace_from_step, Ho; reflexivity).
    rewrite <- Hr in Hp. apply (prefix_replace_from old new _ Hb) in Hp.
    apply (guarded_head _ _ _ Hg) in Hp. congruence.
Qed.

Lemma guarded_same (pattern s : string) : guarded pattern pattern s.
Proof. induction s as [|c s IH]; simpl; auto. Qed.

Lemma guarded_absent (pattern old s : string) :
  PyStr.contains pattern s = false -> guarded pattern old s.
Proof.
  induction s as [|c s IH]; simpl; intros H.
  - apply orb_false_iff in H. destruct H as [H _]. split; [|exact I].
    intros Hp. congruence.
  - apply orb_false_iff in H. destruct H as [H Hrest]. split; [|apply IH; exact Hrest].
    intros Hp. congruence.
Qed.

(** Whatever link is posted, the link [crear_video] stores contains no
    [watch?v=]. *)
Lemma url_final_clean (url_original : string) :
  PyStr.contains "watch?v=" (url_final url_original) = false.
Proof.
  unfold url_final.
  destruct (PyStr.contains "watch?v=" url_original) eqn:Hw.
  - apply replace_from_clean.
    + simpl. repeat split; intros; reflexivity.
    + simpl. repeat split; intros; reflexivity.
    + apply guarded_same.
  - destruct (PyStr.contains "youtu.be/" url_original) eqn:Hy; [|exact Hw].
    apply replace_from_clean.
    + simpl. repeat split; intros; reflexivity.
    + simpl. repeat split; intros; reflexivity.
    + apply guarded_absent. exact Hw.
Qed.

Lemma exec_videos_clean (e : Event) (d : DB) :
  Forall (fun v => PyStr.contains "watch?v=" (Video.url_video v) = false) (videos d) ->
  Forall (fun v => PyStr.contains "watch?v=" (Video.url_video v) = false)
         (videos (exec e d)).
Proof.
  intros H.
  destruct e as [env cookie r | env |]; [destruct r| |];
    open_route; simpl; split_cases; try exact H.
  - (* crear_video *)
    apply Forall_app. split; [exact H|]. constructor; [|constructor].
    simpl. apply url_final_clean.
  - (* borrar_curso *)
    match goal with
    | Hd : delete_curso _ d = Some _ |- _ =>
        apply delete_curso_some in Hd; destruct Hd as [_ [_ Hd]]; rewrite Hd
    end.
    exact H.
  - (* borrar_categoria *)
    match goal with
    | Hd : delete_categoria _ d = Some _ |- _ =>
        apply delete_categoria_some in Hd; destruct Hd as [_ Hd]; rewrite Hd
    end.
    exact H.
  - (* borrar_video *)
    apply Forall_forall. intros v Hv. apply filter_In in Hv.
    exact (proj1 (Forall_forall _ _) H v (proj1 Hv)).
  - repeat (apply Forall_app; split); try exact H; repeat constructor.
  - repeat (apply Forall_app; split); try exact H; repeat constructor.
Qed.

(** X20: the link of every video [crear_video] stores has gone through the
    rewriting, and the videos of [init-data] are written as [embed]
    links: in every store the application reaches from the empty one, no
    video link contains [watch?v=]. *)
Theorem run_videos_clean :
  forall es : list Event,
    Forall (fun v => PyStr.contains "watch?v=" (Video.url_video v) = false)
           (videos (run es empty_db)).
Proof.
  induction es as [|e es IH] using rev_ind.
  - constructor.
  - rewrite run_app. simpl. apply exec_videos_clean. exact IH.
Qed.

(** ** Creating a category twice *)

(** X21: the administrator posts a category name that is free, then the same
    name again: the first post stores the category under a fresh id,
    where it is found; the second stores nothing and says the category
    exists; one category has the name. *)
Theorem crear_categoria_twice :
  forall (admin : Usuario.t) (nombre : string) (d : DB),
    Usuario.is_admin admin = true ->
    ~ In nombre (map Categoria.nombre (categorias d)) ->
    let id := next_id (map Categoria.id (categorias d)) in
    let d1 := persisted d (crear_categoria (Some admin) (POST nombre) d) in
    let again := crear_categoria (Some admin) (POST nombre) d1 in
    get Categoria.id (categorias d1) id = Some (Categoria.mk id nombre)
    /\ again = flash "¡Esa categoría ya existe!" (render_template "crear_categoria.html" [])
    /\ persisted d1 again = d1
    /\ filter (fun c => String.eqb (Categoria.nombre c) nombre) (categorias d1)
       = [Categoria.mk id nombre].
Proof.
  intros admin nombre d Hadmin Hfree id d1 again.
  assert (Hnone : first (fun c => String.eqb (Categoria.nombre c) nombre) (categorias d)
                  = None).
  { destruct (first _ (categorias d)) as [c|] eqn:Hf; [|reflexivity].
    exfalso. apply find_some in Hf. destruct Hf as [Hin He].
    apply String.eqb_eq in He. apply Hfree. rewrite <- He. apply in_map. exact Hin. }
  assert (Hd1 : d1 = add_categoria nombre d).
  { unfold d1, crear_categoria, login_required. rewrite Hadmin. simpl.
    rewrite Hnone. reflexivity. }
  assert (Hfilter : filter (fun c => String.eqb (Categoria.nombre c) nombre) (categorias d)
                    = []).
  { destruct (filter _ (categorias d)) as [|c l] eqn:Hf; [reflexivity|].
    exfalso. assert (Hc : In c (c :: l)) by (left; reflexivity).
    rewrite <- Hf in Hc. apply filter_In in Hc. destruct Hc as [Hin He].
    apply String.eqb_eq in He. apply Hfree. rewrite <- He. apply in_map. exact Hin. }
  assert (Hagain : again = flash "¡Esa categoría ya existe!"
                                 (render_template "crear_categoria.html" [])).
  { unfold again, crear_categoria, login_required. rewrite Hadmin. simpl.
    rewrite Hd1. unfold add_categoria, first. simpl. rewrite find_app.
    unfold first in Hnone. rewrite Hnone. simpl. rewrite String.eqb_refl. reflexivity. }
  split; [|split; [exact Hagain|split]].
  - rewrite Hd1. unfold add_categoria. simpl.
    apply (get_new_row Categoria.id (categorias d) (Categoria.mk id nombre)).
    simpl. apply next_id_fresh.
  - unfold persisted. rewrite Hagain. reflexivity.
  - rewrite Hd1. unfold add_categoria. simpl. rewrite filter_app, Hfilter. simpl.
    rewrite String.eqb_refl. reflexivity.
Qed.

Lemma crear_categoria_twice_witness :
  let d1 := persisted sample_db (crear_categoria (Some root) (POST "Physics") sample_db) in
  let again := crear_categoria (Some root) (POST "Physics") d1 in
  get Categoria.id (categorias d1) 2 = Some (Categoria.mk 2 "Physics")
  /\ again = flash "¡Esa categoría ya existe!" (render_template "crear_categoria.html" [])
  /\ persisted d1 again = d1
  /\ filter (fun c => String.eqb (Categoria.nombre c) "Physics") (categorias d1)
     = [Categoria.mk 2 "Physics"].
Proof.
  apply (crear_categoria_twice root "Physics" sample_db).
  - reflexivity.
  - simpl. intros [H | []]. discriminate H.
Defined.
